(** * validators.ip_address: the [ipv4] and [ipv6] validators

    A shallow embedding of [src/validators/ip_address.py] together with the
    part of CPython's [ipaddress] module (3.11) that the two validators
    drive: [IPv4Address], [IPv4Network], [IPv6Address], [IPv6Network] built
    from a [str].

    Layout
    - [Py]         : the [str] and [int] primitives the parsers use, the
                     exception classes and the exception monad;
    - [ipaddress]  : the address library, class by class, with its two
                     class-level netmask caches as explicit state;
    - [validators] : the two validators as programs over library calls,
                     [raise] and [try]/[except], the [validator] decorator,
                     and the interpreter that runs a program against the
                     library and records what happened;
    - the properties.

    A Python [str] is modelled as a [string] (code points below 256).  Every
    character test of the parsers is a comparison with an ASCII character or
    an ASCII class test, so a code point above 255 takes the branch of any
    other non-ASCII character.  Exception messages are not modelled: an
    exception is its class. *)

From Stdlib Require Import ZArith Ascii String List Bool Lia.
From stdpp Require Import base option gmap strings.

Local Open Scope Z_scope.

(* ===================================================================== *)
(** * Python primitives                                                   *)
(* ===================================================================== *)

Module Py.

(** ** Exceptions *)

(** The exception classes that occur in the library and in the validators:
    the [ValueError] family, which the validators catch, and the classes a
    list access or a wrongly typed argument would raise, which they do
    not. *)
Inductive exn : Set :=
  | Exception
  | TypeError
  | LookupError
  | IndexError             (* class IndexError(LookupError) *)
  | ValueError
  | AddressValueError      (* class AddressValueError(ValueError) *)
  | NetmaskValueError.     (* class NetmaskValueError(ValueError) *)

Definition exn_eqb (a b : exn) : bool :=
  match a, b with
  | Exception, Exception | TypeError, TypeError | LookupError, LookupError
  | IndexError, IndexError | ValueError, ValueError
  | AddressValueError, AddressValueError
  | NetmaskValueError, NetmaskValueError => true
  | _, _ => false
  end.

(** The direct base class ([None] for the root of the modelled hierarchy). *)
Definition base (c : exn) : option exn :=
  match c with
  | Exception => None
  | TypeError => Some Exception
  | LookupError => Some Exception
  | IndexError => Some LookupError
  | ValueError => Some Exception
  | AddressValueError => Some ValueError
  | NetmaskValueError => Some ValueError
  end.

(** [issubclass c d]; the hierarchy is two levels deep. *)
Definition issubclass (c d : exn) : bool :=
  exn_eqb c d ||
  match base c with
  | Some b =>
      exn_eqb b d ||
      match base b with Some b' => exn_eqb b' d | None => false end
  | None => false
  end.

(** [except (c1, c2, ...)]: does the clause catch an exception of class [e]? *)
Definition catches (classes : list exn) (e : exn) : bool :=
  existsb (issubclass e) classes.

(** A Python call either returns or raises. *)
Inductive outcome (A : Type) : Type :=
  | Returns (a : A)
  | Raises (e : exn).
Arguments Returns {A} a.
Arguments Raises {A} e.

Definition bind {A B} (m : outcome A) (k : A -> outcome B) : outcome B :=
  match m with
  | Returns a => k a
  | Raises e => Raises e
  end.

(** [try: m  except classes: h] *)
Definition try_except {A} (m : outcome A) (classes : list exn)
    (h : outcome A) : outcome A :=
  match m with
  | Returns a => Returns a
  | Raises e => if catches classes e then h else Raises e
  end.

Definition returned {A} (m : outcome A) : bool :=
  match m with Returns _ => true | Raises _ => false end.

Declare Scope exc_scope.
Delimit Scope exc_scope with exc.
Notation "x <- m ;; k" := (bind m (fun x => k))
  (at level 100, m at next level, right associativity) : exc_scope.

(** [map f xs] consumed left to right: the first exception wins. *)
Fixpoint mapM {A B} (f : A -> outcome B) (xs : list A) : outcome (list B) :=
  match xs with
  | [] => Returns []
  | x :: xs' => (y <- f x ;; ys <- mapM f xs' ;; Returns (y :: ys))%exc
  end.

(** A [for] loop that threads an accumulator and stops at the first
    exception. *)
Fixpoint foldM {A B} (f : A -> B -> outcome A) (xs : list B) (a : A)
    : outcome A :=
  match xs with
  | [] => Returns a
  | x :: xs' => (a' <- f a x ;; foldM f xs' a')%exc
  end.

(** ** [list] *)

(** [range(a, b)] *)
Definition range (a b : Z) : list Z :=
  map (fun k => a + Z.of_nat k) (seq 0 (Z.to_nat (b - a))).

(** [l[i]], a negative index counting from the end. *)
Definition getitem {A} (l : list A) (i : Z) : outcome A :=
  let n := Z.of_nat (length l) in
  let j := if i <? 0 then i + n else i in
  if (j <? 0) || (n <=? j) then Raises IndexError
  else match nth_error l (Z.to_nat j) with
       | Some x => Returns x
       | None => Raises IndexError
       end.

(** ** [str] *)

(** [bool(s)] for a [str]: the empty string is falsy. *)
Definition truthy_str (s : string) : bool :=
  match s with EmptyString => false | String _ _ => true end.

(** [s.count(c)] for a one-character [c]. *)
Fixpoint count (c : ascii) (s : string) : nat :=
  match s with
  | EmptyString => 0%nat
  | String a s' => ((if Ascii.eqb a c then 1 else 0) + count c s')%nat
  end.

(** [c in s] for a one-character [c]. *)
Fixpoint contains (c : ascii) (s : string) : bool :=
  match s with
  | EmptyString => false
  | String a s' => Ascii.eqb a c || contains c s'
  end.

(** [s.split(sep)] for a one-character [sep]: never the empty list. *)
Fixpoint split (sep : ascii) (s : string) : list string :=
  match s with
  | EmptyString => [EmptyString]
  | String a s' =>
      if Ascii.eqb a sep then EmptyString :: split sep s'
      else match split sep s' with
           | [] => [String a EmptyString]
           | p :: ps => String a p :: ps
           end
  end.

(** [s.partition(sep)]: the part before the first [sep], whether [sep] was
    found, and the part after it. *)
Fixpoint partition (sep : ascii) (s : string) : string * bool * string :=
  match s with
  | EmptyString => (EmptyString, false, EmptyString)
  | String a s' =>
      if Ascii.eqb a sep then (EmptyString, true, s')
      else let '(h, found, t) := partition sep s' in (String a h, found, t)
  end.

Definition forallb_str (p : ascii -> bool) : string -> bool :=
  fix go s := match s with
              | EmptyString => true
              | String a s' => p a && go s'
              end.

Definition code (a : ascii) : N := N_of_ascii a.

Definition is_ascii_char (a : ascii) : bool := (code a <? 128)%N.

(** [s.isascii()]: true on the empty string. *)
Definition isascii (s : string) : bool := forallb_str is_ascii_char s.

(** Unicode category Nd or digit property among the code points below 256:
    the ASCII digits and the superscripts U+00B2, U+00B3, U+00B9. *)
Definition is_digit_char (a : ascii) : bool :=
  ((48 <=? code a) && (code a <=? 57))%N
  || (code a =? 178)%N || (code a =? 179)%N || (code a =? 185)%N.

(** [s.isdigit()]: false on the empty string. *)
Definition isdigit (s : string) : bool :=
  truthy_str s && forallb_str is_digit_char s.

(** Value of a digit in base 16 (and, for ['0'..'9'], base 10). *)
Definition hex_value (a : ascii) : option Z :=
  let n := code a in
  if ((48 <=? n) && (n <=? 57))%N then Some (Z.of_N n - 48)
  else if ((97 <=? n) && (n <=? 102))%N then Some (Z.of_N n - 87)
  else if ((65 <=? n) && (n <=? 70))%N then Some (Z.of_N n - 55)
  else None.

Definition dec_value (a : ascii) : option Z :=
  match hex_value a with
  | Some d => if d <? 10 then Some d else None
  | None => None
  end.

Fixpoint digits_value (radix : Z) (value : ascii -> option Z) (acc : Z)
    (s : string) : option Z :=
  match s with
  | EmptyString => Some acc
  | String a s' =>
      match value a with
      | Some d => digits_value radix value (radix * acc + d) s'
      | None => None
      end
  end.

(** [sys.get_int_max_str_digits()] at its default. *)
Definition int_max_str_digits : nat := 4300.

(** [int(s, 10)] on a string of digits.  The library calls it only behind
    an [isascii() and isdigit()] test, so the other literals [int] accepts
    (sign, blanks, underscores) never reach it; they are refused here.  A
    literal longer than the conversion limit raises [ValueError]. *)
Definition int10 (s : string) : outcome Z :=
  if negb (truthy_str s) then Raises ValueError
  else if (int_max_str_digits <? String.length s)%nat then Raises ValueError
  else match digits_value 10 dec_value 0 s with
       | Some n => Returns n
       | None => Raises ValueError
       end.

(** [int(s, 16)] on a string of hexadecimal digits; the empty string is not
    a literal.  The library calls it only on at most four characters of
    [_HEX_DIGITS]. *)
Definition int16 (s : string) : outcome Z :=
  if negb (truthy_str s) then Raises ValueError
  else match digits_value 16 hex_value 0 s with
       | Some n => Returns n
       | None => Raises ValueError
       end.

Definition hex_digit (d : Z) : ascii :=
  if d <? 10 then ascii_of_N (Z.to_N (48 + d)) else ascii_of_N (Z.to_N (87 + d)).

(** ['%x' % n] for [0 <= n < 16^4]. *)
Definition format_x (n : Z) : string :=
  let ds := [Z.shiftr n 12 mod 16; Z.shiftr n 8 mod 16;
             Z.shiftr n 4 mod 16; n mod 16] in
  let fix strip (l : list Z) : list Z :=
    match l with
    | d :: ((_ :: _) as l') => if d =? 0 then strip l' else l
    | _ => l
    end in
  fold_right (fun d s => String (hex_digit d) s) EmptyString (strip ds).

(** ** [int] *)

(** [n.bit_length()] *)
Definition bit_length (n : Z) : Z :=
  if n =? 0 then 0 else Z.log2 (Z.abs n) + 1.

End Py.

(* ===================================================================== *)
(** * The address library ([ipaddress], CPython 3.11)                     *)
(* ===================================================================== *)

Module ipaddress.
Import Py.
Local Open Scope exc_scope.

Definition slash : ascii := "/"%char.
Definition dot : ascii := "."%char.
Definition colon : ascii := ":"%char.
Definition percent : ascii := "%"%char.

Definition IPV4LENGTH : Z := 32.
Definition IPV6LENGTH : Z := 128.

(** An argument that is an [int] or a [str]: the address of a constructor,
    the mask of [_make_netmask], a key of a netmask cache. *)
Abbreviation pyarg := (Z + string)%type.

(** [_split_optional_netmask(address)] *)
Definition _split_optional_netmask (address : string) : outcome (list string) :=
  let addr := split slash address in
  if (2 <? length addr)%nat then Raises AddressValueError
  else Returns addr.

(** [_count_righthand_zero_bits(number, bits)] *)
Definition _count_righthand_zero_bits (number bits : Z) : Z :=
  if number =? 0 then bits
  else Z.min bits (bit_length (Z.land (Z.lnot number) (number - 1))).

(** ** [_IPAddressBase]: the class methods shared by both families *)

(** What a class method reads from [cls]. *)
Record cls : Type := {
  _version : Z;
  _ALL_ONES : Z;
  _max_prefixlen : Z;
  _ip_int_from_string : string -> outcome Z
}.

Section IPAddressBase.
Variable c : cls.

Definition _check_int_address (address : Z) : outcome unit :=
  if address <? 0 then Raises AddressValueError
  else if _ALL_ONES c <? address then Raises AddressValueError
  else Returns tt.

Definition _ip_int_from_prefix (prefixlen : Z) : Z :=
  Z.lxor (_ALL_ONES c) (Z.shiftr (_ALL_ONES c) prefixlen).

Definition _prefix_from_ip_int (ip_int : Z) : outcome Z :=
  let trailing_zeroes := _count_righthand_zero_bits ip_int (_max_prefixlen c) in
  let prefixlen := _max_prefixlen c - trailing_zeroes in
  let leading_ones := Z.shiftr ip_int trailing_zeroes in
  let all_ones := Z.shiftl 1 prefixlen - 1 in
  if negb (leading_ones =? all_ones) then Raises ValueError
  else Returns prefixlen.

Definition _report_invalid_netmask {A} : outcome A := Raises NetmaskValueError.

Definition _prefix_from_prefix_string (prefixlen_str : string) : outcome Z :=
  _ <- (if negb (isascii prefixlen_str && isdigit prefixlen_str)
        then _report_invalid_netmask else Returns tt) ;;
  prefixlen <- try_except (int10 prefixlen_str) [ValueError]
                 _report_invalid_netmask ;;
  _ <- (if negb ((0 <=? prefixlen) && (prefixlen <=? _max_prefixlen c))
        then _report_invalid_netmask else Returns tt) ;;
  Returns prefixlen.

Definition _prefix_from_ip_string (ip_str : string) : outcome Z :=
  ip_int <- try_except (_ip_int_from_string c ip_str) [AddressValueError]
              _report_invalid_netmask ;;
  try_except (_prefix_from_ip_int ip_int) [ValueError]
    (let ip_int := Z.lxor ip_int (_ALL_ONES c) in
     try_except (_prefix_from_ip_int ip_int) [ValueError]
       _report_invalid_netmask).

(** [_split_addr_prefix(address)] for a [str]; the caller unpacks the result
    into [addr, mask], which raises [ValueError] on any other length. *)
Definition _split_addr_prefix (address : string) : outcome (string * pyarg) :=
  address <- _split_optional_netmask address ;;
  if (1 <? length address)%nat then
    match address with
    | [addr; mask] => Returns (addr, inr mask)
    | _ => Raises ValueError
    end
  else
    addr <- getitem address 0 ;;
    Returns (addr, inl (_max_prefixlen c)).

End IPAddressBase.

(** ** IPv4 *)

Record IPv4Address : Type := { _ip4 : Z }.

(** The instance attributes of an [IPv4Network]; the [hosts] override that
    [__init__] installs for /31 and /32 is left out. *)
Record IPv4Network : Type := {
  network_address4 : IPv4Address;
  netmask4 : IPv4Address;
  _prefixlen4 : Z
}.

Module BaseV4.

Definition _parse_octet (octet_str : string) : outcome Z :=
  if negb (truthy_str octet_str) then Raises ValueError
  else if negb (isascii octet_str && isdigit octet_str) then Raises ValueError
  else if (3 <? String.length octet_str)%nat then Raises ValueError
  else if negb (String.eqb octet_str "0") &&
          match octet_str with
          | String a _ => Ascii.eqb a "0"%char
          | EmptyString => false
          end
       then Raises ValueError
  else
    octet_int <- int10 octet_str ;;
    if 255 <? octet_int then Raises ValueError
    else Returns octet_int.

(** [int.from_bytes(bs, 'big')] *)
Definition from_bytes_big (bs : list Z) : Z :=
  fold_left (fun acc b => 256 * acc + b) bs 0.

Definition _ip_int_from_string (ip_str : string) : outcome Z :=
  if negb (truthy_str ip_str) then Raises AddressValueError
  else
    let octets := split dot ip_str in
    if negb (length octets =? 4)%nat then Raises AddressValueError
    else
      try_except
        (bs <- mapM _parse_octet octets ;; Returns (from_bytes_big bs))
        [ValueError]
        (Raises AddressValueError).

Definition class : cls :=
  Build_cls 4 (2 ^ IPV4LENGTH - 1) IPV4LENGTH _ip_int_from_string.

End BaseV4.

(** [IPv4Address(address)] for an [int] or a [str]. *)
Definition new_IPv4Address (address : pyarg) : outcome IPv4Address :=
  match address with
  | inl n =>
      _ <- _check_int_address BaseV4.class n ;;
      Returns {| _ip4 := n |}
  | inr addr_str =>
      if contains slash addr_str then Raises AddressValueError
      else
        ip <- BaseV4._ip_int_from_string addr_str ;;
        Returns {| _ip4 := ip |}
  end.

(** [_BaseV4._make_netmask(arg)] without its cache: what the method computes
    and stores for an [arg] that is not cached yet. *)
Definition make_netmask4 (arg : pyarg) : outcome (IPv4Address * Z) :=
  prefixlen <-
    match arg with
    | inl prefixlen =>
        if negb ((0 <=? prefixlen) && (prefixlen <=? _max_prefixlen BaseV4.class))
        then _report_invalid_netmask
        else Returns prefixlen
    | inr s =>
        try_except (_prefix_from_prefix_string BaseV4.class s)
          [NetmaskValueError]
          (_prefix_from_ip_string BaseV4.class s)
    end ;;
  netmask <- new_IPv4Address (inl (_ip_int_from_prefix BaseV4.class prefixlen)) ;;
  Returns (netmask, prefixlen).

(** ** IPv6 *)

Record IPv6Address : Type := { _ip6 : Z; _scope_id : option string }.

Record IPv6Network : Type := {
  network_address6 : IPv6Address;
  netmask6 : IPv6Address;
  _prefixlen6 : Z
}.

Module BaseV6.

Definition _HEXTET_COUNT : Z := 8.

(** Membership in [_HEX_DIGITS]. *)
Definition is_hex_digit (a : ascii) : bool :=
  match hex_value a with Some _ => true | None => false end.

Definition _parse_hextet (hextet_str : string) : outcome Z :=
  if negb (forallb_str is_hex_digit hextet_str) then Raises ValueError
  else if (4 <? String.length hextet_str)%nat then Raises ValueError
  else int16 hextet_str.

(** The loop that looks for a ['::'] strictly inside [parts]. *)
Definition find_skip_index (parts : list string) : outcome (option Z) :=
  foldM (fun skip_index i =>
           p <- getitem parts i ;;
           if negb (truthy_str p) then
             match skip_index with
             | Some _ => Raises AddressValueError
             | None => Returns (Some i)
             end
           else Returns skip_index)
        (range 1 (Z.of_nat (length parts) - 1)) None.

(** [(parts_hi, parts_lo, parts_skipped)] *)
Definition layout (parts : list string) (skip_index : option Z)
    : outcome (Z * Z * Z) :=
  let len := Z.of_nat (length parts) in
  first <- getitem parts 0 ;;
  last <- getitem parts (-1) ;;
  match skip_index with
  | Some skip_index =>
      let parts_hi := skip_index in
      let parts_lo := len - skip_index - 1 in
      parts_hi <-
        (if negb (truthy_str first) then
           let parts_hi := parts_hi - 1 in
           if negb (parts_hi =? 0) then Raises AddressValueError
           else Returns parts_hi
         else Returns parts_hi) ;;
      parts_lo <-
        (if negb (truthy_str last) then
           let parts_lo := parts_lo - 1 in
           if negb (parts_lo =? 0) then Raises AddressValueError
           else Returns parts_lo
         else Returns parts_lo) ;;
      let parts_skipped := _HEXTET_COUNT - (parts_hi + parts_lo) in
      if parts_skipped <? 1 then Raises AddressValueError
      else Returns (parts_hi, parts_lo, parts_skipped)
  | None =>
      if negb (len =? _HEXTET_COUNT) then Raises AddressValueError
      else if negb (truthy_str first) then Raises AddressValueError
      else if negb (truthy_str last) then Raises AddressValueError
      else Returns (len, 0, 0)
  end.

Definition add_hextet (parts : list string) (ip_int i : Z) : outcome Z :=
  let ip_int := Z.shiftl ip_int 16 in
  p <- getitem parts i ;;
  h <- _parse_hextet p ;;
  Returns (Z.lor ip_int h).

Definition _ip_int_from_string (ip_str : string) : outcome Z :=
  if negb (truthy_str ip_str) then Raises AddressValueError
  else
    let parts := split colon ip_str in
    let _min_parts := 3%nat in
    if (length parts <? _min_parts)%nat then Raises AddressValueError
    else
      last <- getitem parts (-1) ;;
      parts <-
        (if contains dot last then
           a <- try_except (new_IPv4Address (inr last)) [AddressValueError]
                  (Raises AddressValueError) ;;
           let ipv4_int := _ip4 a in
           Returns (removelast parts ++
                    [format_x (Z.land (Z.shiftr ipv4_int 16) 65535);
                     format_x (Z.land ipv4_int 65535)])
         else Returns parts) ;;
      let _max_parts := _HEXTET_COUNT + 1 in
      if _max_parts <? Z.of_nat (length parts) then Raises AddressValueError
      else
        skip_index <- find_skip_index parts ;;
        l <- layout parts skip_index ;;
        let '(parts_hi, parts_lo, parts_skipped) := l in
        try_except
          (ip_int <- foldM (add_hextet parts) (range 0 parts_hi) 0 ;;
           let ip_int := Z.shiftl ip_int (16 * parts_skipped) in
           foldM (add_hextet parts) (range (- parts_lo) 0) ip_int)
          [ValueError]
          (Raises AddressValueError).

Definition _split_scope_id (ip_str : string) : outcome (string * option string) :=
  let '(addr, sep, scope_id) := partition percent ip_str in
  if negb sep then Returns (addr, None)
  else if negb (truthy_str scope_id) || contains percent scope_id
       then Raises AddressValueError
  else Returns (addr, Some scope_id).

Definition class : cls :=
  Build_cls 6 (2 ^ IPV6LENGTH - 1) IPV6LENGTH _ip_int_from_string.

End BaseV6.

(** [IPv6Address(address)] for an [int] or a [str]. *)
Definition new_IPv6Address (address : pyarg) : outcome IPv6Address :=
  match address with
  | inl n =>
      _ <- _check_int_address BaseV6.class n ;;
      Returns {| _ip6 := n; _scope_id := None |}
  | inr addr_str =>
      if contains slash addr_str then Raises AddressValueError
      else
        p <- BaseV6._split_scope_id addr_str ;;
        ip <- BaseV6._ip_int_from_string (fst p) ;;
        Returns {| _ip6 := ip; _scope_id := snd p |}
  end.

(** [_BaseV6._make_netmask(arg)] without its cache. *)
Definition make_netmask6 (arg : pyarg) : outcome (IPv6Address * Z) :=
  prefixlen <-
    match arg with
    | inl prefixlen =>
        if negb ((0 <=? prefixlen) && (prefixlen <=? _max_prefixlen BaseV6.class))
        then _report_invalid_netmask
        else Returns prefixlen
    | inr s => _prefix_from_prefix_string BaseV6.class s
    end ;;
  netmask <- new_IPv6Address (inl (_ip_int_from_prefix BaseV6.class prefixlen)) ;;
  Returns (netmask, prefixlen).

(** ** The netmask caches and the network classes *)

(** [_BaseV4._netmask_cache] and [_BaseV6._netmask_cache]: two class-level
    dicts from the mask argument to [(netmask, prefixlen)], shared by every
    call in the process. *)
Record state : Type := {
  v4_netmask_cache : gmap pyarg (IPv4Address * Z);
  v6_netmask_cache : gmap pyarg (IPv6Address * Z)
}.

(** Both dicts as the class bodies create them, [_netmask_cache = {}].  By
    the time a validator runs they are no longer empty: importing the module
    builds the networks of the library's own constants. *)
Definition initial : state :=
  {| v4_netmask_cache := ∅; v6_netmask_cache := ∅ |}.

(** A library call runs in the state of the two caches. *)
Definition M (A : Type) : Type := state -> outcome A * state.

Definition ret {A} (a : A) : M A := fun st => (Returns a, st).
Definition raise {A} (e : exn) : M A := fun st => (Raises e, st).
Definition lift {A} (m : outcome A) : M A := fun st => (m, st).
Definition bindM {A B} (m : M A) (k : A -> M B) : M B :=
  fun st =>
    match m st with
    | (Returns a, st') => k a st'
    | (Raises e, st') => (Raises e, st')
    end.

Declare Scope lib_scope.
Delimit Scope lib_scope with lib.
Notation "x <- m ;; k" := (bindM m (fun x => k))
  (at level 100, m at next level, right associativity) : lib_scope.

(** [_BaseV4._make_netmask(arg)]: the entry is computed and stored on a
    miss, and an exception leaves the cache as it was. *)
Definition _make_netmask4 (arg : pyarg) : M (IPv4Address * Z) :=
  fun st =>
    match v4_netmask_cache st !! arg with
    | Some entry => (Returns entry, st)
    | None =>
        match make_netmask4 arg with
        | Returns entry =>
            (Returns entry,
             {| v4_netmask_cache := <[arg := entry]> (v4_netmask_cache st);
                v6_netmask_cache := v6_netmask_cache st |})
        | Raises e => (Raises e, st)
        end
    end.

(** [_BaseV6._make_netmask(arg)] *)
Definition _make_netmask6 (arg : pyarg) : M (IPv6Address * Z) :=
  fun st =>
    match v6_netmask_cache st !! arg with
    | Some entry => (Returns entry, st)
    | None =>
        match make_netmask6 arg with
        | Returns entry =>
            (Returns entry,
             {| v4_netmask_cache := v4_netmask_cache st;
                v6_netmask_cache := <[arg := entry]> (v6_netmask_cache st) |})
        | Raises e => (Raises e, st)
        end
    end.

(** [IPv4Network(address, strict)] for a [str]. *)
Definition new_IPv4Network (address : string) (strict : bool) : M IPv4Network :=
  (p <- lift (_split_addr_prefix BaseV4.class address) ;;
   let '(addr, mask) := p in
   network_address <- lift (new_IPv4Address (inr addr)) ;;
   m <- _make_netmask4 mask ;;
   let '(netmask, prefixlen) := m in
   let packed := _ip4 network_address in
   if negb (Z.land packed (_ip4 netmask) =? packed) then
     if strict then raise ValueError
     else
       network_address <-
         lift (new_IPv4Address (inl (Z.land packed (_ip4 netmask)))) ;;
       ret {| network_address4 := network_address;
              netmask4 := netmask; _prefixlen4 := prefixlen |}
   else
     ret {| network_address4 := network_address;
            netmask4 := netmask; _prefixlen4 := prefixlen |})%lib.

(** [IPv6Network(address, strict)] for a [str]. *)
Definition new_IPv6Network (address : string) (strict : bool) : M IPv6Network :=
  (p <- lift (_split_addr_prefix BaseV6.class address) ;;
   let '(addr, mask) := p in
   network_address <- lift (new_IPv6Address (inr addr)) ;;
   m <- _make_netmask6 mask ;;
   let '(netmask, prefixlen) := m in
   let packed := _ip6 network_address in
   if negb (Z.land packed (_ip6 netmask) =? packed) then
     if strict then raise ValueError
     else
       network_address <-
         lift (new_IPv6Address (inl (Z.land packed (_ip6 netmask)))) ;;
       ret {| network_address6 := network_address;
              netmask6 := netmask; _prefixlen6 := prefixlen |}
   else
     ret {| network_address6 := network_address;
            netmask6 := netmask; _prefixlen6 := prefixlen |})%lib.

End ipaddress.

(* ===================================================================== *)
(** * The validators ([validators/ip_address.py])                         *)
(* ===================================================================== *)

Module validators.
Import Py ipaddress.

(** What a validator body returns: [False], or the object it parsed. *)
Inductive pyval : Type :=
  | VBool (b : bool)
  | VIPv4Address (a : IPv4Address)
  | VIPv4Network (n : IPv4Network)
  | VIPv6Address (a : IPv6Address)
  | VIPv6Network (n : IPv6Network).

(** [bool(v)]: the address and network classes define neither [__bool__]
    nor [__len__], so every instance is truthy. *)
Definition truthy (v : pyval) : bool :=
  match v with
  | VBool b => b
  | _ => true
  end.

(** The names the module imports from [ipaddress] and calls. *)
Inductive call : Type :=
  | IPv4Network_ (address : string) (strict : bool)
  | IPv4Address_ (address : string)
  | IPv6Network_ (address : string) (strict : bool)
  | IPv6Address_ (address : string).

(** The statements a validator body is made of.  [Ret a] is the value of an
    expression or a [return a]; [Call c] evaluates to the object the library
    builds and raises what the library raises. *)
Inductive prog : Type -> Type :=
  | Ret {A} (a : A) : prog A
  | Raise {A} (e : exn) : prog A
  | Call (c : call) : prog pyval
  | Bind {A B} (m : prog A) (k : A -> prog B) : prog B
  | Try {A} (body : prog A) (classes : list exn) (handler : prog A) : prog A.

Declare Scope prog_scope.
Delimit Scope prog_scope with prog.
Notation "x <- m ;; k" := (Bind m (fun x => k))
  (at level 100, m at next level, right associativity) : prog_scope.

(** [def ipv4(value, /, *, cidr=True, strict=False, host_bit=True)] *)
Definition ipv4 (value : string) (cidr strict host_bit : bool) : prog pyval :=
  if negb (truthy_str value) then Ret (VBool false)
  else
    Try
      (if cidr then
         (_ <- (if strict && negb (count slash value =? 1)%nat
                then Raise ValueError else Ret tt) ;;
          Call (IPv4Network_ value (negb host_bit)))%prog
       else Call (IPv4Address_ value))
      [ValueError; AddressValueError; NetmaskValueError]
      (Ret (VBool false)).

(** [def ipv6(value, /, *, cidr=True, strict=False, host_bit=True)] *)
Definition ipv6 (value : string) (cidr strict host_bit : bool) : prog pyval :=
  if negb (truthy_str value) then Ret (VBool false)
  else
    Try
      (if cidr then
         (_ <- (if strict && negb (count slash value =? 1)%nat
                then Raise ValueError else Ret tt) ;;
          Call (IPv6Network_ value (negb host_bit)))%prog
       else Call (IPv6Address_ value))
      [ValueError; AddressValueError; NetmaskValueError]
      (Ret (VBool false)).

(** ** The decorator *)

Record arguments : Type := {
  arg_value : string;
  arg_cidr : bool;
  arg_strict : bool;
  arg_host_bit : bool
}.

(** What the decorated function returns. *)
Inductive verdict : Type :=
  | Passed (v : pyval)
  | ValidationError (function : string) (args : arguments).

(** Modelled from the spec: the [validator] decorator of [validators.utils],
    which is not among the sources.  On [False] the wrapped function returns
    a failure object that carries the function's name and its arguments;
    any other result of the body passes through unchanged. *)
Definition validator (name : string)
    (func : string -> bool -> bool -> bool -> prog pyval)
    (value : string) (cidr strict host_bit : bool) : prog verdict :=
  (r <- func value cidr strict host_bit ;;
   match r with
   | VBool false =>
       Ret (ValidationError name
              {| arg_value := value; arg_cidr := cidr;
                 arg_strict := strict; arg_host_bit := host_bit |})
   | _ => Ret (Passed r)
   end)%prog.

(** ** Running a program against the library *)

(** The library behind each call. *)
Definition exec (c : call) : M pyval :=
  match c with
  | IPv4Network_ address strict =>
      (n <- new_IPv4Network address strict ;; ret (VIPv4Network n))%lib
  | IPv4Address_ address =>
      (a <- lift (new_IPv4Address (inr address)) ;; ret (VIPv4Address a))%lib
  | IPv6Network_ address strict =>
      (n <- new_IPv6Network address strict ;; ret (VIPv6Network n))%lib
  | IPv6Address_ address =>
      (a <- lift (new_IPv6Address (inr address)) ;; ret (VIPv6Address a))%lib
  end.

(** What a run lets an observer see, in order. *)
Inductive event : Type :=
  | Called (c : call)        (* a library constructor was entered *)
  | Raised (e : exn)         (* an exception started to propagate *)
  | Caught (e : exn).        (* an [except] clause took it *)

Record run_result (S A : Type) : Type := {
  result : outcome A;
  final : S;
  events : list event
}.
Arguments result {S A} r.
Arguments final {S A} r.
Arguments events {S A} r.

(** The interpreter, for any library: a library answers a call in its own
    state [S]. *)
Section Run.
Context {S : Type} (lib : call -> S -> outcome pyval * S).

Fixpoint run_with {A} (p : prog A) (st : S) : run_result S A :=
  match p in prog A return run_result S A with
  | Ret a => {| result := Returns a; final := st; events := [] |}
  | Raise e => {| result := Raises e; final := st; events := [Raised e] |}
  | Call c =>
      let '(r, st') := lib c st in
      {| result := r; final := st';
         events := Called c ::
                   match r with Raises e => [Raised e] | Returns _ => [] end |}
  | Bind m k =>
      let rm := run_with m st in
      match result rm with
      | Returns a =>
          let rk := run_with (k a) (final rm) in
          {| result := result rk; final := final rk;
             events := events rm ++ events rk |}
      | Raises e =>
          {| result := Raises e; final := final rm; events := events rm |}
      end
  | Try body classes handler =>
      let rb := run_with body st in
      match result rb with
      | Returns a => rb
      | Raises e =>
          if catches classes e then
            let rh := run_with handler (final rb) in
            {| result := result rh; final := final rh;
               events := events rb ++ Caught e :: events rh |}
          else rb
      end
  end.

End Run.

(** A run against [ipaddress]. *)
Definition run {A} (p : prog A) (st : state) : run_result state A :=
  run_with exec p st.

End validators.

(* ===================================================================== *)
(** * Vocabulary of the properties                                        *)
(* ===================================================================== *)

Module Props.
Import Py ipaddress validators.

(** An instance of [ValueError] or of one of its subclasses. *)
Definition value_error (e : exn) : bool := issubclass e ValueError.

(** [post m Q]: if [m] returns, the result satisfies [Q]; if it raises, the
    exception is a [ValueError]. *)
Definition post {A} (m : outcome A) (Q : A -> Prop) : Prop :=
  match m with
  | Returns a => Q a
  | Raises e => value_error e = true
  end.

(** The [except] clause of both validators. *)
Definition handled : list exn :=
  [ValueError; AddressValueError; NetmaskValueError].

(** The verdict of a validator body. *)
Definition failed (r : outcome pyval) : Prop := r = Returns (VBool false).

Definition is_object (v : pyval) : Prop :=
  match v with VBool _ => False | _ => True end.

Definition succeeded (r : outcome pyval) : Prop :=
  exists v, r = Returns v /\ is_object v.

(** Both validators follow one pattern; [validate] is that pattern with the
    two constructors left open. *)
Definition validate (network : string -> bool -> call) (address : string -> call)
    (value : string) (cidr strict host_bit : bool) : prog pyval :=
  if negb (truthy_str value) then Ret (VBool false)
  else
    Try
      (if cidr then
         (_ <- (if strict && negb (count slash value =? 1)%nat
                then Raise ValueError else Ret tt) ;;
          Call (network value (negb host_bit)))%prog
       else Call (address value))
      handled
      (Ret (VBool false)).

(** The call a validator makes when it gets as far as the library. *)
Definition the_call (network : string -> bool -> call) (address : string -> call)
    (value : string) (cidr host_bit : bool) : call :=
  if cidr then network value (negb host_bit) else address value.

(** Does the [strict] test of the body raise? *)
Definition strict_violation (value : string) (cidr strict : bool) : bool :=
  cidr && (strict && negb (count slash value =? 1)%nat).

(** A run from which no exception escapes: it returns [False] or the parsed
    object, and every exception that was raised on the way was caught and
    turned into [False]. *)
Definition no_escape (r : run_result state pyval) : Prop :=
  (failed (result r) \/ succeeded (result r)) /\
  (forall e, In (Raised e) (events r) ->
             In (Caught e) (events r) /\ failed (result r)).


(** The purity that the specification states of a validator [f], in its
    words: no state is mutated (a call leaves the state as it found it), and
    no state is read (the result of a call is the same in every state). *)
Definition mutates_no_state
    (f : string -> bool -> bool -> bool -> prog pyval) : Prop :=
  forall (value : string) (cidr strict host_bit : bool) (st : state),
    final (run (f value cidr strict host_bit) st) = st.

Definition reads_no_state
    (f : string -> bool -> bool -> bool -> prog pyval) : Prop :=
  forall (value : string) (cidr strict host_bit : bool) (st st' : state),
    result (run (f value cidr strict host_bit) st) =
    result (run (f value cidr strict host_bit) st').

(** The default keyword arguments. *)
Definition ipv4_default (value : string) : prog pyval := ipv4 value true false true.
Definition ipv6_default (value : string) : prog pyval := ipv6 value true false true.

(** Every entry of a netmask cache is what [_make_netmask] computes for its
    key: the state of a process in which only the library wrote to the
    caches. *)
Definition caches_ok (st : state) : Prop :=
  (forall arg entry, v4_netmask_cache st !! arg = Some entry ->
                     make_netmask4 arg = Returns entry) /\
  (forall arg entry, v6_netmask_cache st !! arg = Some entry ->
                     make_netmask6 arg = Returns entry).

(** Does the run enter the library? *)
Definition calls (l : list event) : list call :=
  flat_map (fun ev => match ev with Called c => [c] | _ => [] end) l.

(** The three ways [_make_netmask] ends: a hit, a miss that fills the
    cache, a miss that raises. *)
Inductive netmask_step {E} (cache : state -> gmap pyarg E)
    (fresh : pyarg -> outcome E) (arg : pyarg) (st : state)
    : outcome E * state -> Prop :=
  | netmask_hit entry :
      cache st !! arg = Some entry ->
      netmask_step cache fresh arg st (Returns entry, st)
  | netmask_fill entry st' :
      cache st !! arg = None -> fresh arg = Returns entry ->
      cache st' = <[arg := entry]> (cache st) ->
      netmask_step cache fresh arg st (Returns entry, st')
  | netmask_raise e :
      cache st !! arg = None -> fresh arg = Raises e ->
      value_error e = true ->
      netmask_step cache fresh arg st (Raises e, st).

(** The object is an instance of the class that the call names. *)
Definition built_by (c : call) (v : pyval) : Prop :=
  match c, v with
  | IPv4Network_ _ _, VIPv4Network _ | IPv4Address_ _, VIPv4Address _
  | IPv6Network_ _ _, VIPv6Network _ | IPv6Address_ _, VIPv6Address _ => True
  | _, _ => False
  end.

End Props.

(** Vocabulary for what the validators accept. *)
Module Shape.
Import Py ipaddress validators.

(** The part of a value before its first ['/']: what a network constructor
    hands to the address constructor. *)
Definition address_part (value : string) : string :=
  hd EmptyString (split slash value).

(** An octet of two or more characters that starts with ['0']. *)
Definition leading_zero (p : string) : bool :=
  match p with
  | String a (String _ _) => Ascii.eqb a "0"%char
  | _ => false
  end.

Definition ascii_digit (c : ascii) : bool := is_ascii_char c && is_digit_char c.

(** The characters of a dotted quad. *)
Definition quad_char (c : ascii) : bool := ascii_digit c || Ascii.eqb c dot.

(** The characters an accepted IPv4 value is made of. *)
Definition ipv4_char (c : ascii) : bool := quad_char c || Ascii.eqb c slash.

(** [nm] is the mask of a [plen]-bit prefix in a [width]-bit address: the
    top [plen] bits, and nothing else. *)
Definition prefix_mask (width plen nm : Z) : Prop :=
  forall i, 0 <= i -> Z.testbit nm i = (width - plen <=? i) && (i <? width).

(** What holds of every network a validator returns. *)
Definition network_ok (width address nm plen : Z) : Prop :=
  0 <= plen <= width /\
  prefix_mask width plen nm /\
  0 <= address < 2 ^ width /\
  Z.land address nm = address.

(** What [ipv4] may return: [False], or an address or network of its own
    family that is well formed. *)
Definition returns4 (v : pyval) : Prop :=
  match v with
  | VBool b => b = false
  | VIPv4Address a => 0 <= _ip4 a < 2 ^ 32
  | VIPv4Network n =>
      network_ok 32 (_ip4 (network_address4 n)) (_ip4 (netmask4 n))
        (_prefixlen4 n)
  | VIPv6Address _ | VIPv6Network _ => False
  end.

(** What [ipv6] may return. *)
Definition returns6 (v : pyval) : Prop :=
  match v with
  | VBool b => b = false
  | VIPv6Address a => 0 <= _ip6 a < 2 ^ 128
  | VIPv6Network n =>
      network_ok 128 (_ip6 (network_address6 n)) (_ip6 (netmask6 n))
        (_prefixlen6 n)
  | VIPv4Address _ | VIPv4Network _ => False
  end.

End Shape.

Import Py ipaddress validators Props Shape.
Local Open Scope string_scope.
Local Open Scope Z_scope.

(* ===================================================================== *)
(** * Strings                                                             *)
(* ===================================================================== *)

Section Strings.

Lemma truthy_str_empty (s : string) : truthy_str s = false <-> s = "".
Proof. destruct s; simpl; split; congruence. Qed.

Lemma truthy_str_nonempty (s : string) : s <> "" -> truthy_str s = true.
Proof. destruct s; simpl; congruence. Qed.

Lemma split_not_nil (sep : ascii) (s : string) : split sep s <> [].
Proof.
  induction s as [|a s IH]; simpl; [discriminate|].
  destruct (Ascii.eqb a sep); [discriminate|].
  destruct (split sep s); [contradiction | discriminate].
Qed.

Lemma split_length (sep : ascii) (s : string) :
  length (split sep s) = S (count sep s).
Proof.
  induction s as [|a s IH]; simpl; [reflexivity|].
  destruct (Ascii.eqb a sep); simpl; [now rewrite IH|].
  destruct (split sep s) eqn:E; [now apply split_not_nil in E|].
  simpl in *. exact IH.
Qed.

Lemma contains_count (c : ascii) (s : string) :
  contains c s = negb (count c s =? 0)%nat.
Proof.
  induction s as [|a s IH]; simpl; [reflexivity|].
  destruct (Ascii.eqb a c); simpl; [reflexivity | exact IH].
Qed.

(** A character other than the separator is in the string exactly when it
    is in one of the parts. *)
Lemma contains_split (c sep : ascii) (s : string) :
  c <> sep -> contains c s = existsb (contains c) (split sep s).
Proof.
  intros Hne. induction s as [|a s IH]; simpl; [reflexivity|].
  destruct (Ascii.eqb a sep) eqn:Ea.
  - apply Ascii.eqb_eq in Ea. subst a.
    assert (Ascii.eqb sep c = false) as ->.
    { apply Ascii.eqb_neq. congruence. }
    simpl. exact IH.
  - destruct (split sep s) as [|p ps] eqn:E; [now apply split_not_nil in E|].
    simpl in *. rewrite IH. now rewrite orb_assoc.
Qed.

Lemma forallb_str_contains (p : ascii -> bool) (c : ascii) (s : string) :
  forallb_str p s = true -> p c = false -> contains c s = false.
Proof.
  intros Hall Hc. induction s as [|a s IH]; simpl in *; [reflexivity|].
  apply andb_true_iff in Hall as [Ha Hs].
  rewrite (IH Hs), orb_false_r.
  apply Ascii.eqb_neq. intros ->. congruence.
Qed.

Lemma partition_head_contains (c sep : ascii) (s : string) :
  contains c (fst (fst (partition sep s))) = true -> contains c s = true.
Proof.
  induction s as [|a s IH]; simpl; [discriminate|].
  destruct (Ascii.eqb a sep); simpl; [discriminate|].
  destruct (partition sep s) as [[h found] t]. simpl in *.
  intros H. apply orb_true_iff in H as [H|H].
  - now rewrite H.
  - rewrite (IH H). apply orb_true_r.
Qed.

Lemma contains_nonempty (c : ascii) (s : string) :
  contains c s = true -> s <> "".
Proof. destruct s; simpl; congruence. Qed.

End Strings.

(* ===================================================================== *)
(** * A Hoare logic for the exception monad                               *)
(* ===================================================================== *)

Lemma post_returns {A} (a : A) (Q : A -> Prop) : Q a -> post (Returns a) Q.
Proof. exact (fun H => H). Qed.

Lemma post_bind {A B} (m : outcome A) (k : A -> outcome B) (Q : A -> Prop)
    (R : B -> Prop) :
  post m Q -> (forall a, m = Returns a -> Q a -> post (k a) R) ->
  post (Py.bind m k) R.
Proof. destruct m; simpl; auto. Qed.

Lemma post_weaken {A} (m : outcome A) (Q R : A -> Prop) :
  post m Q -> (forall a, m = Returns a -> Q a -> R a) -> post m R.
Proof. destruct m; simpl; auto. Qed.

Lemma post_try {A} (m : outcome A) (classes : list exn) (h : outcome A)
    (Q : A -> Prop) :
  post m Q -> post h Q -> post (try_except m classes h) Q.
Proof.
  destruct m as [a|e]; simpl; auto.
  intros He Hh. destruct (catches classes e); auto.
Qed.

(** A handler that replaces the exceptions it takes: the body may raise
    anything the clause catches. *)
Lemma post_try_any {A} (m : outcome A) (classes : list exn) (h : outcome A)
    (Q : A -> Prop) :
  (forall a, m = Returns a -> Q a) ->
  (forall e, m = Raises e -> catches classes e = false -> value_error e = true) ->
  post h Q -> post (try_except m classes h) Q.
Proof.
  destruct m as [a|e]; simpl; auto.
  intros _ He Hh. destruct (catches classes e) eqn:E; auto. simpl. auto.
Qed.

Lemma post_foldM {A B} (f : A -> B -> outcome A) (xs : list B) (I : A -> Prop) :
  forall a, I a ->
  (forall a x, In x xs -> I a -> post (f a x) I) ->
  post (foldM f xs a) I.
Proof.
  induction xs as [|x xs IH]; intros a Ha Hf; simpl; [exact Ha|].
  apply post_bind with (Q := I).
  - apply Hf; [now left | exact Ha].
  - intros a' _ Ha'. apply IH; [exact Ha'|].
    intros a0 x0 Hin. apply Hf. now right.
Qed.

Lemma post_mapM {A B} (f : A -> outcome B) (xs : list A) (Q : B -> Prop) :
  (forall x, In x xs -> post (f x) Q) ->
  post (mapM f xs) (Forall Q).
Proof.
  induction xs as [|x xs IH]; intros Hf; simpl; [constructor|].
  apply post_bind with (Q := Q); [apply Hf; now left|].
  intros y _ Hy. apply post_bind with (Q := Forall Q).
  - apply IH. intros x0 Hin. apply Hf. now right.
  - intros ys _ Hys. simpl. now constructor.
Qed.

Lemma mapM_returns {A B} (f : A -> outcome B) (xs : list A) (ys : list B) :
  mapM f xs = Returns ys -> Forall (fun x => exists y, f x = Returns y) xs.
Proof.
  revert ys. induction xs as [|x xs IH]; intros ys H; [constructor|].
  simpl in H. destruct (f x) as [y|] eqn:E; simpl in H; [|discriminate].
  destruct (mapM f xs) as [ys'|] eqn:E'; simpl in H; [|discriminate].
  constructor; [eauto | eapply IH; reflexivity].
Qed.

Lemma In_range (a b i : Z) : In i (range a b) -> a <= i < b.
Proof.
  unfold range. intros H. apply in_map_iff in H as (k & <- & Hk).
  apply in_seq in Hk. lia.
Qed.

Lemma getitem_in_range {A} (l : list A) (i : Z) :
  - Z.of_nat (length l) <= i < Z.of_nat (length l) ->
  exists x, getitem l i = Returns x.
Proof.
  intros Hi. unfold getitem.
  set (n := Z.of_nat (length l)) in *.
  set (j := if i <? 0 then i + n else i).
  assert (0 <= j < n) as Hj.
  { unfold j. destruct (Z.ltb_spec i 0); lia. }
  destruct (Z.ltb_spec j 0); [lia|]. destruct (Z.leb_spec n j); [lia|]. simpl.
  destruct (nth_error l (Z.to_nat j)) as [x|] eqn:E; [eauto|].
  apply nth_error_None in E. unfold n in Hj. lia.
Qed.

Lemma post_getitem {A} (l : list A) (i : Z) :
  - Z.of_nat (length l) <= i < Z.of_nat (length l) ->
  post (getitem l i) (fun _ => True).
Proof. intros H. destruct (getitem_in_range l i H) as [x ->]. exact I. Qed.

(* ===================================================================== *)
(** * The library raises nothing but [ValueError]s                        *)
(* ===================================================================== *)

Create HintDb post discriminated.

(** One step of a proof that a library function raises only [ValueError]s:
    follow the shape of the code. *)
Ltac post_step :=
  match goal with
  | |- post (Returns _) _ => exact I
  | |- post (Raises _) _ => reflexivity
  | |- post _report_invalid_netmask _ => reflexivity
  | |- post (if ?c then _ else _) _ => destruct c eqn:?
  | |- post (Py.bind _ _) _ =>
      apply post_bind with (Q := fun _ => True); [|intros ? ? _]
  | |- post (try_except _ _ _) _ => apply post_try
  | |- post (match ?x with _ => _ end) _ => destruct x eqn:?
  | |- post _ _ => solve [eauto with post]
  end.

Ltac post_auto := repeat post_step.

Section RaisesV4.

Lemma post_int10 (s : string) : post (int10 s) (fun _ => True).
Proof. unfold int10. post_auto. Qed.

Lemma post_int16 (s : string) : post (int16 s) (fun _ => True).
Proof. unfold int16. post_auto. Qed.

Hint Resolve post_int10 post_int16 : post.

Lemma post_parse_octet (s : string) :
  post (BaseV4._parse_octet s) (fun _ => True).
Proof. unfold BaseV4._parse_octet. post_auto. Qed.

Hint Resolve post_parse_octet : post.

Lemma post_ip_int_from_string4 (s : string) :
  post (BaseV4._ip_int_from_string s) (fun _ => True).
Proof.
  unfold BaseV4._ip_int_from_string. post_auto.
  eapply post_weaken; [apply post_mapM with (Q := fun _ => True)|auto].
  intros; apply post_parse_octet.
Qed.

Lemma post_check_int_address (c : cls) (n : Z) :
  post (_check_int_address c n) (fun _ => True).
Proof. unfold _check_int_address. post_auto. Qed.

Hint Resolve post_ip_int_from_string4 post_check_int_address : post.

Lemma post_new_IPv4Address (address : pyarg) :
  post (new_IPv4Address address) (fun _ => True).
Proof. unfold new_IPv4Address. post_auto. Qed.

Lemma post_prefix_from_ip_int (c : cls) (n : Z) :
  post (_prefix_from_ip_int c n) (fun _ => True).
Proof. unfold _prefix_from_ip_int. post_auto. Qed.

Lemma post_prefix_from_prefix_string (c : cls) (s : string) :
  post (_prefix_from_prefix_string c s) (fun _ => True).
Proof. unfold _prefix_from_prefix_string. post_auto. Qed.

Hint Resolve post_new_IPv4Address post_prefix_from_ip_int
  post_prefix_from_prefix_string : post.

Lemma post_prefix_from_ip_string (c : cls) (s : string) :
  (forall s', post (_ip_int_from_string c s') (fun _ => True)) ->
  post (_prefix_from_ip_string c s) (fun _ => True).
Proof. intros Hc. unfold _prefix_from_ip_string. post_auto. Qed.

Lemma post_make_netmask4 (arg : pyarg) :
  post (make_netmask4 arg) (fun _ => True).
Proof.
  unfold make_netmask4. post_auto.
  apply post_prefix_from_ip_string. intros s'. apply post_ip_int_from_string4.
Qed.

Lemma post_split_optional_netmask (address : string) :
  post (_split_optional_netmask address)
       (fun l => l = split slash address /\ (length l <= 2)%nat).
Proof.
  unfold _split_optional_netmask.
  destruct (Nat.ltb_spec 2 (length (split slash address))); simpl;
    [reflexivity | auto].
Qed.

Lemma post_split_addr_prefix (c : cls) (address : string) :
  post (_split_addr_prefix c address) (fun _ => True).
Proof.
  unfold _split_addr_prefix.
  eapply post_bind; [apply post_split_optional_netmask|].
  intros l _ [-> Hlen].
  pose proof (split_not_nil slash address) as Hne.
  destruct (split slash address) as [|a [|m [|x l]]]; simpl in *;
    try contradiction; try exact I; lia.
Qed.

End RaisesV4.

#[local] Hint Resolve post_int10 post_int16 post_parse_octet
  post_ip_int_from_string4 post_check_int_address post_new_IPv4Address
  post_prefix_from_ip_int post_prefix_from_prefix_string
  post_make_netmask4 post_split_addr_prefix : post.

Section RaisesV6.

Lemma post_parse_hextet (s : string) :
  post (BaseV6._parse_hextet s) (fun _ => True).
Proof. unfold BaseV6._parse_hextet. post_auto. Qed.

(** A ['::'] is only looked for, and found, strictly inside the list: no
    access is out of range. *)
Lemma post_find_skip_index (parts : list string) :
  post (BaseV6.find_skip_index parts)
       (fun r => forall k, r = Some k -> 1 <= k < Z.of_nat (length parts) - 1).
Proof.
  unfold BaseV6.find_skip_index.
  apply post_foldM; [discriminate|].
  intros r i Hi Hr. apply In_range in Hi.
  destruct (getitem_in_range parts i) as [p ->]; [lia|]. simpl.
  destruct (truthy_str p); simpl; [exact Hr|].
  destruct r; simpl; [reflexivity|].
  intros k [= <-]. exact Hi.
Qed.

Lemma post_layout (parts : list string) (skip_index : option Z) :
  3 <= Z.of_nat (length parts) ->
  (forall k, skip_index = Some k -> 1 <= k < Z.of_nat (length parts) - 1) ->
  post (BaseV6.layout parts skip_index)
       (fun l => 0 <= l.1.1 <= Z.of_nat (length parts) /\
                 0 <= l.1.2 <= Z.of_nat (length parts)).
Proof.
  intros Hlen Hk. unfold BaseV6.layout.
  destruct (getitem_in_range parts 0) as [first ->]; [lia|].
  destruct (getitem_in_range parts (-1)) as [last ->]; [lia|]. simpl.
  destruct skip_index as [k|].
  - specialize (Hk k eq_refl).
    destruct (truthy_str first), (truthy_str last); simpl;
      repeat match goal with
             | |- context [if negb (?a =? ?b) then _ else _] =>
                 destruct (Z.eqb_spec a b); simpl
             | |- context [if ?a <? ?b then _ else _] =>
                 destruct (Z.ltb_spec a b); simpl
             end; try reflexivity; lia.
  - destruct (Z.eqb_spec (Z.of_nat (length parts)) BaseV6._HEXTET_COUNT);
      simpl; [|reflexivity].
    destruct (truthy_str first), (truthy_str last); simpl;
      try reflexivity; lia.
Qed.

Lemma post_add_hextet (parts : list string) (ip_int i : Z) :
  - Z.of_nat (length parts) <= i < Z.of_nat (length parts) ->
  post (BaseV6.add_hextet parts ip_int i) (fun _ => True).
Proof.
  intros Hi. unfold BaseV6.add_hextet.
  destruct (getitem_in_range parts i Hi) as [p ->]. simpl.
  apply post_bind with (Q := fun _ => True); [apply post_parse_hextet|].
  intros; exact I.
Qed.

Lemma post_ip_int_from_string6 (s : string) :
  post (BaseV6._ip_int_from_string s) (fun _ => True).
Proof.
  unfold BaseV6._ip_int_from_string.
  destruct (truthy_str s); simpl; [|reflexivity].
  destruct (Nat.ltb_spec (length (split colon s)) 3) as [|Hlen]; [reflexivity|].
  destruct (getitem_in_range (split colon s) (-1)) as [last ->]; [lia|]. simpl.
  apply post_bind with
    (Q := fun parts : list string => 3 <= Z.of_nat (length parts)).
  { destruct (contains dot last); simpl; [|lia].
    apply post_bind with (Q := fun _ => True); [post_auto|].
    intros a _ _. simpl.
    rewrite length_app, removelast_firstn_len, length_firstn. simpl. lia. }
  intros parts _ Hparts.
  destruct (_ <? _); [reflexivity|].
  eapply post_bind; [apply post_find_skip_index|].
  intros skip _ Hskip.
  eapply post_bind; [apply (post_layout parts skip Hparts Hskip)|].
  intros [[hi lo] sk] _ [Hhi Hlo]. simpl in Hhi, Hlo.
  apply post_try; [|reflexivity].
  apply post_bind with (Q := fun _ => True).
  - apply post_foldM; [exact I|].
    intros a i Hi _. apply In_range in Hi. apply post_add_hextet. lia.
  - intros a _ _. apply post_foldM; [exact I|].
    intros a' i Hi _. apply In_range in Hi. apply post_add_hextet. lia.
Qed.

Lemma post_split_scope_id (s : string) :
  post (BaseV6._split_scope_id s) (fun _ => True).
Proof.
  unfold BaseV6._split_scope_id.
  destruct (partition percent s) as [[addr sep] scope]. post_auto.
Qed.

Hint Resolve post_ip_int_from_string6 post_split_scope_id : post.

Lemma post_new_IPv6Address (address : pyarg) :
  post (new_IPv6Address address) (fun _ => True).
Proof. unfold new_IPv6Address. post_auto. Qed.

Hint Resolve post_new_IPv6Address : post.

Lemma post_make_netmask6 (arg : pyarg) :
  post (make_netmask6 arg) (fun _ => True).
Proof. unfold make_netmask6. post_auto. Qed.

End RaisesV6.

#[local] Hint Resolve post_new_IPv6Address post_make_netmask6 : post.

(* ===================================================================== *)
(** * The network constructors and the caches                             *)
(* ===================================================================== *)

Section Networks.

Lemma value_error_handled (e : exn) :
  value_error e = true -> catches handled e = true.
Proof. destruct e; simpl; intros H; try discriminate H; reflexivity. Qed.

Lemma make_netmask4_step (arg : pyarg) (st : state) :
  netmask_step v4_netmask_cache make_netmask4 arg st (_make_netmask4 arg st).
Proof.
  unfold _make_netmask4.
  destruct (v4_netmask_cache st !! arg) as [entry|] eqn:Hc.
  - now constructor.
  - pose proof (post_make_netmask4 arg) as Hp.
    destruct (make_netmask4 arg) as [entry|e] eqn:Hf.
    + now apply netmask_fill.
    + now apply netmask_raise.
Qed.

Lemma make_netmask6_step (arg : pyarg) (st : state) :
  netmask_step v6_netmask_cache make_netmask6 arg st (_make_netmask6 arg st).
Proof.
  unfold _make_netmask6.
  destruct (v6_netmask_cache st !! arg) as [entry|] eqn:Hc.
  - now constructor.
  - pose proof (post_make_netmask6 arg) as Hp.
    destruct (make_netmask6 arg) as [entry|e] eqn:Hf.
    + now apply netmask_fill.
    + now apply netmask_raise.
Qed.

(** [IPv4Network.__init__], statement by statement. *)
Lemma new_IPv4Network_unfold (address : string) (strict : bool) (st : state) :
  new_IPv4Network address strict st =
  match _split_addr_prefix BaseV4.class address with
  | Raises e => (Raises e, st)
  | Returns (addr, mask) =>
      match new_IPv4Address (inr addr) with
      | Raises e => (Raises e, st)
      | Returns a =>
          match _make_netmask4 mask st with
          | (Raises e, st') => (Raises e, st')
          | (Returns (nm, plen), st') =>
              if Z.land (_ip4 a) (_ip4 nm) =? _ip4 a then
                (Returns {| network_address4 := a; netmask4 := nm;
                            _prefixlen4 := plen |}, st')
              else if strict then (Raises ValueError, st')
              else
                match new_IPv4Address (inl (Z.land (_ip4 a) (_ip4 nm))) with
                | Returns na =>
                    (Returns {| network_address4 := na; netmask4 := nm;
                                _prefixlen4 := plen |}, st')
                | Raises e => (Raises e, st')
                end
          end
      end
  end.
Proof.
  unfold new_IPv4Network, bindM, lift, ret, raise.
  destruct (_split_addr_prefix BaseV4.class address) as [[addr mask]|];
    [|reflexivity].
  destruct (new_IPv4Address (inr addr)) as [a|]; [|reflexivity].
  destruct (_make_netmask4 mask st) as [[[nm plen]|] st']; [|reflexivity].
  destruct (Z.land (_ip4 a) (_ip4 nm) =? _ip4 a); [reflexivity|].
  destruct strict; [reflexivity|].
  cbn [negb].
  destruct (new_IPv4Address (inl (Z.land (_ip4 a) (_ip4 nm)))); reflexivity.
Qed.

(** [IPv6Network.__init__], statement by statement. *)
Lemma new_IPv6Network_unfold (address : string) (strict : bool) (st : state) :
  new_IPv6Network address strict st =
  match _split_addr_prefix BaseV6.class address with
  | Raises e => (Raises e, st)
  | Returns (addr, mask) =>
      match new_IPv6Address (inr addr) with
      | Raises e => (Raises e, st)
      | Returns a =>
          match _make_netmask6 mask st with
          | (Raises e, st') => (Raises e, st')
          | (Returns (nm, plen), st') =>
              if Z.land (_ip6 a) (_ip6 nm) =? _ip6 a then
                (Returns {| network_address6 := a; netmask6 := nm;
                            _prefixlen6 := plen |}, st')
              else if strict then (Raises ValueError, st')
              else
                match new_IPv6Address (inl (Z.land (_ip6 a) (_ip6 nm))) with
                | Returns na =>
                    (Returns {| network_address6 := na; netmask6 := nm;
                                _prefixlen6 := plen |}, st')
                | Raises e => (Raises e, st')
                end
          end
      end
  end.
Proof.
  unfold new_IPv6Network, bindM, lift, ret, raise.
  destruct (_split_addr_prefix BaseV6.class address) as [[addr mask]|];
    [|reflexivity].
  destruct (new_IPv6Address (inr addr)) as [a|]; [|reflexivity].
  destruct (_make_netmask6 mask st) as [[[nm plen]|] st']; [|reflexivity].
  destruct (Z.land (_ip6 a) (_ip6 nm) =? _ip6 a); [reflexivity|].
  destruct strict; [reflexivity|].
  cbn [negb].
  destruct (new_IPv6Address (inl (Z.land (_ip6 a) (_ip6 nm)))); reflexivity.
Qed.

(** Whatever the caches hold, a network constructor raises nothing but
    [ValueError]s. *)
Lemma post_new_IPv4Network (address : string) (strict : bool) (st : state) :
  post (new_IPv4Network address strict st).1 (fun _ => True).
Proof.
  rewrite new_IPv4Network_unfold.
  pose proof (post_split_addr_prefix BaseV4.class address) as H1.
  destruct (_split_addr_prefix _ _) as [[addr mask]|]; [|exact H1].
  pose proof (post_new_IPv4Address (inr addr)) as H2.
  destruct (new_IPv4Address (inr addr)) as [a|]; [|exact H2].
  destruct (make_netmask4_step mask st) as [[nm plen] _|[nm plen] st' _ _ _|e _ _ He];
    [| |exact He].
  all: destruct (_ =? _); [exact I|]; destruct strict; [reflexivity|].
  all: pose proof (post_new_IPv4Address (inl (Z.land (_ip4 a) (_ip4 nm)))) as H3.
  all: destruct (new_IPv4Address (inl (Z.land (_ip4 a) (_ip4 nm))));
    [exact I | exact H3].
Qed.

Lemma post_new_IPv6Network (address : string) (strict : bool) (st : state) :
  post (new_IPv6Network address strict st).1 (fun _ => True).
Proof.
  rewrite new_IPv6Network_unfold.
  pose proof (post_split_addr_prefix BaseV6.class address) as H1.
  destruct (_split_addr_prefix _ _) as [[addr mask]|]; [|exact H1].
  pose proof (post_new_IPv6Address (inr addr)) as H2.
  destruct (new_IPv6Address (inr addr)) as [a|]; [|exact H2].
  destruct (make_netmask6_step mask st) as [[nm plen] _|[nm plen] st' _ _ _|e _ _ He];
    [| |exact He].
  all: destruct (_ =? _); [exact I|]; destruct strict; [reflexivity|].
  all: pose proof (post_new_IPv6Address (inl (Z.land (_ip6 a) (_ip6 nm)))) as H3.
  all: destruct (new_IPv6Address (inl (Z.land (_ip6 a) (_ip6 nm))));
    [exact I | exact H3].
Qed.

(** A library call returns an object of the class that was called, or
    raises a [ValueError]. *)
Lemma post_exec (c : call) (st : state) : post (exec c st).1 (built_by c).
Proof.
  destruct c as [address strict|address|address strict|address];
    unfold exec, bindM, lift, ret.
  - pose proof (post_new_IPv4Network address strict st) as H.
    destruct (new_IPv4Network address strict st) as [[n|e] st']; simpl in *; auto.
  - pose proof (post_new_IPv4Address (inr address)) as H.
    destruct (new_IPv4Address (inr address)); simpl in *; auto.
  - pose proof (post_new_IPv6Network address strict st) as H.
    destruct (new_IPv6Network address strict st) as [[n|e] st']; simpl in *; auto.
  - pose proof (post_new_IPv6Address (inr address)) as H.
    destruct (new_IPv6Address (inr address)); simpl in *; auto.
Qed.

End Networks.

(* ===================================================================== *)
(** * The validators                                                      *)
(* ===================================================================== *)

Section Validators.

Lemma ipv4_validate : ipv4 = validate IPv4Network_ IPv4Address_.
Proof. reflexivity. Qed.

Lemma ipv6_validate : ipv6 = validate IPv6Network_ IPv6Address_.
Proof. reflexivity. Qed.

Variables (network : string -> bool -> call) (address : string -> call).

(** A run of a validator on a non-empty value, step by step, against any
    library. *)
Lemma run_with_validate {S} (lib : call -> S -> outcome pyval * S)
    (value : string) (cidr strict host_bit : bool) (st : S) :
  value <> "" ->
  run_with lib (validate network address value cidr strict host_bit) st =
  if strict_violation value cidr strict then
    {| result := Returns (VBool false); final := st;
       events := [Raised ValueError; Caught ValueError] |}
  else
    let c := the_call network address value cidr host_bit in
    match lib c st with
    | (Returns v, st') =>
        {| result := Returns v; final := st'; events := [Called c] |}
    | (Raises e, st') =>
        if catches handled e then
          {| result := Returns (VBool false); final := st';
             events := [Called c; Raised e; Caught e] |}
        else
          {| result := Raises e; final := st';
             events := [Called c; Raised e] |}
    end.
Proof.
  intros Hne. unfold validate, strict_violation, the_call.
  rewrite (truthy_str_nonempty value Hne). cbn [negb].
  destruct cidr; cbn [andb].
  - destruct (strict && negb (count slash value =? 1)%nat); [reflexivity|].
    cbn. destruct (lib _ st) as [[v|e] st']; cbn; [reflexivity|].
    destruct (catches handled e); reflexivity.
  - cbn. destruct (lib _ st) as [[v|e] st']; cbn; [reflexivity|].
    destruct (catches handled e); reflexivity.
Qed.

Lemma run_validate (value : string) (cidr strict host_bit : bool) (st : state) :
  value <> "" ->
  run (validate network address value cidr strict host_bit) st =
  if strict_violation value cidr strict then
    {| result := Returns (VBool false); final := st;
       events := [Raised ValueError; Caught ValueError] |}
  else
    let c := the_call network address value cidr host_bit in
    match exec c st with
    | (Returns v, st') =>
        {| result := Returns v; final := st'; events := [Called c] |}
    | (Raises e, st') =>
        if catches handled e then
          {| result := Returns (VBool false); final := st';
             events := [Called c; Raised e; Caught e] |}
        else
          {| result := Raises e; final := st';
             events := [Called c; Raised e] |}
    end.
Proof. apply run_with_validate. Qed.

Lemma run_validate_empty (cidr strict host_bit : bool) (st : state) :
  run (validate network address "" cidr strict host_bit) st =
  {| result := Returns (VBool false); final := st; events := [] |}.
Proof. reflexivity. Qed.

Lemma built_by_object (c : call) (v : pyval) : built_by c v -> is_object v.
Proof. destruct c, v; simpl; auto. Qed.

Lemma no_escape_validate (value : string) (cidr strict host_bit : bool)
    (st : state) :
  no_escape (run (validate network address value cidr strict host_bit) st).
Proof.
  destruct (string_dec value "") as [->|Hne].
  { rewrite run_validate_empty. split; [now left | intros e []]. }
  rewrite (run_validate _ _ _ _ _ Hne).
  destruct (strict_violation value cidr strict).
  { split; [now left|]. cbn. intros e [[= <-]|[[=]|[]]]. split; [auto | reflexivity]. }
  cbn zeta. pose proof (post_exec (the_call network address value cidr host_bit) st) as Hp.
  destruct (exec _ st) as [[v|e] st']; cbn in Hp.
  - split.
    + right. exists v. split; [reflexivity | eapply built_by_object, Hp].
    + cbn. intros e [[=]|[]].
  - rewrite (value_error_handled e Hp). split; [now left|].
    cbn. intros e' [[=]|[[= <-]|[[=]|[]]]]. split; [auto | reflexivity].
Qed.

End Validators.

(* ===================================================================== *)
(** * Error handling and option dispatch                                  *)
(* ===================================================================== *)

(** C1.  For every value, every combination of the flags and every state of
    the library, a run of [ipv4] and a run of [ipv6] return: the result is
    [False] or the parsed object, never an exception, and every exception
    raised on the way (by the parse, or by the strict test of the body) was
    caught by the [except] clause and turned into [False]. *)
Theorem validators_never_raise (st : state) (value : string)
    (cidr strict host_bit : bool) :
  no_escape (run (ipv4 value cidr strict host_bit) st) /\
  no_escape (run (ipv6 value cidr strict host_bit) st).
Proof. split; [rewrite ipv4_validate | rewrite ipv6_validate]; apply no_escape_validate. Qed.

(** C5.  On the empty string both bodies are the bare [return False]: for
    every combination of the flags the run returns [False], calls nothing,
    raises and catches nothing, and leaves the library as it was. *)
Theorem empty_value_fails (st : state) (cidr strict host_bit : bool) :
  ipv4 "" cidr strict host_bit = Ret (VBool false) /\
  ipv6 "" cidr strict host_bit = Ret (VBool false) /\
  run (ipv4 "" cidr strict host_bit) st =
    {| result := Returns (VBool false); final := st; events := [] |} /\
  run (ipv6 "" cidr strict host_bit) st =
    {| result := Returns (VBool false); final := st; events := [] |}.
Proof. repeat split. Qed.

(** C8.  With [cidr=False] the body does not look at [strict] or
    [host_bit]: the program is the same for every pair of them, and so is
    every run of it. *)
Theorem flags_unused_without_cidr (value : string) (s1 h1 s2 h2 : bool) :
  ipv4 value false s1 h1 = ipv4 value false s2 h2 /\
  ipv6 value false s1 h1 = ipv6 value false s2 h2 /\
  (forall st, run (ipv4 value false s1 h1) st = run (ipv4 value false s2 h2) st) /\
  (forall st, run (ipv6 value false s1 h1) st = run (ipv6 value false s2 h2) st).
Proof. repeat split. Qed.

Section Dispatch.
Variables (network : string -> bool -> call) (address : string -> call).

Lemma calls_validate (value : string) (cidr strict host_bit : bool) (st : state) :
  value <> "" -> strict_violation value cidr strict = false ->
  calls (events (run (validate network address value cidr strict host_bit) st))
  = [the_call network address value cidr host_bit].
Proof.
  intros Hne Hs. rewrite (run_validate _ _ _ _ _ _ _ Hne), Hs. cbn zeta.
  destruct (exec _ st) as [[v|e] st']; [reflexivity|].
  destruct (catches handled e); reflexivity.
Qed.

Lemma run_validate_strict_violation (value : string) (host_bit : bool)
    (st : state) :
  value <> "" -> count slash value <> 1%nat ->
  run (validate network address value true true host_bit) st =
  {| result := Returns (VBool false); final := st;
     events := [Raised ValueError; Caught ValueError] |}.
Proof.
  intros Hne Hc. rewrite (run_validate _ _ _ _ _ _ _ Hne).
  unfold strict_violation. apply Nat.eqb_neq in Hc. now rewrite Hc.
Qed.

Lemma run_validate_one_slash (value : string) (host_bit : bool) (st : state) :
  count slash value = 1%nat ->
  run (validate network address value true true host_bit) st =
    run (validate network address value true false host_bit) st /\
  calls (events (run (validate network address value true true host_bit) st))
  = [network value (negb host_bit)].
Proof.
  intros Hc.
  assert (value <> "") as Hne by (intros ->; discriminate Hc).
  assert (strict_violation value true true = false) as Hs.
  { unfold strict_violation. apply Nat.eqb_eq in Hc. now rewrite Hc. }
  split.
  - rewrite !(run_validate _ _ _ _ _ _ _ Hne), Hs. reflexivity.
  - now rewrite calls_validate.
Qed.

End Dispatch.

(** C2.  With [cidr=True] and [strict=True], a non-empty value whose number
    of ['/'] is not one fails on the strict test of the body: the
    [ValueError] is raised and caught, no library call is made and the
    library is left as it was.  A value with exactly one ['/'] goes on to
    the network constructor, as it does without [strict].  So
    [ipv4("1.1.1.1/8", strict=True)] succeeds, and ["1.1.1.1"] and
    ["1.1.1.1/8/8"] fail. *)
Theorem strict_needs_one_slash :
  (forall (st : state) (value : string) (host_bit : bool),
     value <> "" -> count slash value <> 1%nat ->
     run (ipv4 value true true host_bit) st =
       {| result := Returns (VBool false); final := st;
          events := [Raised ValueError; Caught ValueError] |} /\
     run (ipv6 value true true host_bit) st =
       {| result := Returns (VBool false); final := st;
          events := [Raised ValueError; Caught ValueError] |}) /\
  (forall (st : state) (value : string) (host_bit : bool),
     count slash value = 1%nat ->
     (run (ipv4 value true true host_bit) st =
        run (ipv4 value true false host_bit) st /\
      calls (events (run (ipv4 value true true host_bit) st))
      = [IPv4Network_ value (negb host_bit)]) /\
     (run (ipv6 value true true host_bit) st =
        run (ipv6 value true false host_bit) st /\
      calls (events (run (ipv6 value true true host_bit) st))
      = [IPv6Network_ value (negb host_bit)])) /\
  succeeded (result (run (ipv4 "1.1.1.1/8" true true true) initial)) /\
  failed (result (run (ipv4 "1.1.1.1" true true true) initial)) /\
  failed (result (run (ipv4 "1.1.1.1/8/8" true true true) initial)).
Proof.
  split; [|split; [|split; [|split]]].
  - intros st value host_bit Hne Hc. rewrite ipv4_validate, ipv6_validate.
    split; now apply run_validate_strict_violation.
  - intros st value host_bit Hc. rewrite ipv4_validate, ipv6_validate.
    split; now apply run_validate_one_slash.
  - eexists. split; [vm_compute; reflexivity | exact I].
  - reflexivity.
  - reflexivity.
Qed.

Lemma strict_needs_one_slash_witness :
  run (ipv4 "1.1.1.1" true true false) initial =
    {| result := Returns (VBool false); final := initial;
       events := [Raised ValueError; Caught ValueError] |} /\
  calls (events (run (ipv6 "::1/128" true true true) initial))
  = [IPv6Network_ "::1/128" false].
Proof.
  split.
  - apply (proj1 strict_needs_one_slash initial "1.1.1.1" false);
      [discriminate | vm_compute; discriminate].
  - apply (proj1 (proj2 strict_needs_one_slash) initial "::1/128" true).
    reflexivity.
Defined.

Lemma exec_address4_slash (value : string) (st : state) :
  contains slash value = true ->
  exec (IPv4Address_ value) st = (Raises AddressValueError, st).
Proof. intros H. unfold exec, bindM, lift. simpl. now rewrite H. Qed.

Lemma exec_address6_slash (value : string) (st : state) :
  contains slash value = true ->
  exec (IPv6Address_ value) st = (Raises AddressValueError, st).
Proof. intros H. unfold exec, bindM, lift. simpl. now rewrite H. Qed.

(** C4.  With [cidr=False] the body of a non-empty value is the one call of
    the address constructor inside the [try], so a value that contains a
    ['/'] fails: the constructor raises [AddressValueError] before it
    parses anything.  [ipv4("1.1.1.1/8", cidr=False)] fails and
    [ipv4("1.1.1.1/8")] succeeds. *)
Theorem bare_address_rejects_suffix :
  (forall (value : string) (strict host_bit : bool),
     value <> "" ->
     ipv4 value false strict host_bit =
       Try (Call (IPv4Address_ value)) handled (Ret (VBool false)) /\
     ipv6 value false strict host_bit =
       Try (Call (IPv6Address_ value)) handled (Ret (VBool false))) /\
  (forall (st : state) (value : string) (strict host_bit : bool),
     contains slash value = true ->
     run (ipv4 value false strict host_bit) st =
       {| result := Returns (VBool false); final := st;
          events := [Called (IPv4Address_ value); Raised AddressValueError;
                     Caught AddressValueError] |} /\
     run (ipv6 value false strict host_bit) st =
       {| result := Returns (VBool false); final := st;
          events := [Called (IPv6Address_ value); Raised AddressValueError;
                     Caught AddressValueError] |}) /\
  failed (result (run (ipv4 "1.1.1.1/8" false false true) initial)) /\
  succeeded (result (run (ipv4_default "1.1.1.1/8") initial)).
Proof.
  split; [|split; [|split]].
  - intros value strict host_bit Hne. destruct value; [contradiction|].
    split; reflexivity.
  - intros st value strict host_bit Hs.
    pose proof (contains_nonempty _ _ Hs) as Hne.
    rewrite ipv4_validate, ipv6_validate, !(run_validate _ _ _ _ _ _ _ Hne).
    unfold strict_violation, the_call. cbn [andb]. cbv zeta.
    rewrite (exec_address4_slash _ _ Hs), (exec_address6_slash _ _ Hs).
    split; reflexivity.
  - reflexivity.
  - eexists. split; [vm_compute; reflexivity | exact I].
Qed.

Lemma bare_address_rejects_suffix_witness :
  ipv6 "::1/128" false true false =
    Try (Call (IPv6Address_ "::1/128")) handled (Ret (VBool false)) /\
  result (run (ipv6 "::1/128" false true false) initial) = Returns (VBool false).
Proof.
  split.
  - apply (proj1 bare_address_rejects_suffix "::1/128" true false). discriminate.
  - pose proof (proj2 (proj1 (proj2 bare_address_rejects_suffix)
                         initial "::1/128" true false eq_refl)) as H.
    now rewrite H.
Defined.

(* ===================================================================== *)
(** * What a successful run returns                                       *)
(* ===================================================================== *)

Section Success.

Lemma exec_network4 (address : string) (strict : bool) (st : state) :
  exec (IPv4Network_ address strict) st =
  match new_IPv4Network address strict st with
  | (Returns n, st') => (Returns (VIPv4Network n), st')
  | (Raises e, st') => (Raises e, st')
  end.
Proof. unfold exec, bindM, ret. now destruct (new_IPv4Network _ _ _) as [[]]. Qed.

Lemma exec_network6 (address : string) (strict : bool) (st : state) :
  exec (IPv6Network_ address strict) st =
  match new_IPv6Network address strict st with
  | (Returns n, st') => (Returns (VIPv6Network n), st')
  | (Raises e, st') => (Raises e, st')
  end.
Proof. unfold exec, bindM, ret. now destruct (new_IPv6Network _ _ _) as [[]]. Qed.

Lemma exec_address4 (address : string) (st : state) :
  exec (IPv4Address_ address) st =
  match new_IPv4Address (inr address) with
  | Returns a => (Returns (VIPv4Address a), st)
  | Raises e => (Raises e, st)
  end.
Proof. unfold exec, bindM, lift, ret. now destruct (new_IPv4Address _). Qed.

Lemma exec_address6 (address : string) (st : state) :
  exec (IPv6Address_ address) st =
  match new_IPv6Address (inr address) with
  | Returns a => (Returns (VIPv6Address a), st)
  | Raises e => (Raises e, st)
  end.
Proof. unfold exec, bindM, lift, ret. now destruct (new_IPv6Address _). Qed.

Variables (network : string -> bool -> call) (address : string -> call).

(** The library returned: so does the validator, with the same object. *)
Lemma run_validate_returns (value : string) (cidr strict host_bit : bool)
    (st st' : state) (v : pyval) :
  value <> "" -> strict_violation value cidr strict = false ->
  exec (the_call network address value cidr host_bit) st = (Returns v, st') ->
  run (validate network address value cidr strict host_bit) st =
  {| result := Returns v; final := st';
     events := [Called (the_call network address value cidr host_bit)] |}.
Proof.
  intros Hne Hs He. rewrite (run_validate _ _ _ _ _ _ _ Hne), Hs. cbv zeta.
  now rewrite He.
Qed.

(** The validator returned an object: the library was called and returned
    it. *)
Lemma run_validate_object (value : string) (cidr strict host_bit : bool)
    (st : state) (v : pyval) :
  result (run (validate network address value cidr strict host_bit) st)
  = Returns v ->
  is_object v ->
  value <> "" /\ strict_violation value cidr strict = false /\
  exec (the_call network address value cidr host_bit) st =
    (Returns v, final (run (validate network address value cidr strict host_bit) st)).
Proof.
  intros Hr Hv.
  destruct (string_dec value "") as [->|Hne].
  { rewrite run_validate_empty in Hr. injection Hr as <-. destruct Hv. }
  rewrite (run_validate _ _ _ _ _ _ _ Hne) in Hr |- *.
  destruct (strict_violation value cidr strict).
  { injection Hr as <-. destruct Hv. }
  cbv zeta in Hr |- *.
  destruct (exec _ st) as [[v'|e] st'].
  - injection Hr as ->. auto.
  - destruct (catches handled e); [|discriminate Hr].
    injection Hr as <-. destruct Hv.
Qed.

(** The decorator lets an object through and turns [False] into the
    failure object. *)
Lemma run_validator (name : string)
    (func : string -> bool -> bool -> bool -> prog pyval)
    (value : string) (cidr strict host_bit : bool) (st : state) (v : pyval) :
  result (run (func value cidr strict host_bit) st) = Returns v ->
  result (run (validator name func value cidr strict host_bit) st) =
  Returns (if truthy v then Passed v
           else ValidationError name
                  {| arg_value := value; arg_cidr := cidr;
                     arg_strict := strict; arg_host_bit := host_bit |}).
Proof.
  unfold validator, run. cbn [run_with]. intros ->.
  destruct v as [[]| | | |]; reflexivity.
Qed.

End Success.

Lemma new_IPv4Network_nonempty (value : string) (strict : bool) (st st' : state)
    (n : IPv4Network) :
  new_IPv4Network value strict st = (Returns n, st') -> value <> "".
Proof. intros H ->. rewrite new_IPv4Network_unfold in H. discriminate H. Qed.

Lemma new_IPv6Network_nonempty (value : string) (strict : bool) (st st' : state)
    (n : IPv6Network) :
  new_IPv6Network value strict st = (Returns n, st') -> value <> "".
Proof. intros H ->. rewrite new_IPv6Network_unfold in H. discriminate H. Qed.

Lemma new_IPv4Address_nonempty (value : string) (a : IPv4Address) :
  new_IPv4Address (inr value) = Returns a -> value <> "".
Proof. intros H ->. discriminate H. Qed.

Lemma new_IPv6Address_nonempty (value : string) (a : IPv6Address) :
  new_IPv6Address (inr value) = Returns a -> value <> "".
Proof. intros H ->. discriminate H. Qed.

(** C7.  When the parse succeeds the body returns the object the library
    built, an [IPv4Network] or [IPv6Network] with [cidr=True] and an
    [IPv4Address] or [IPv6Address] without: a truthy value that is neither
    [False] nor [True], which the decorator hands on unchanged.
    [ipv4("123.0.0.7")] returns the network 123.0.0.7/32, and
    [ipv4("900.80.70.11")] returns [False]. *)
Theorem success_returns_parsed_object :
  (forall (st st' : state) (value : string) (strict host_bit : bool) n,
     strict_violation value true strict = false ->
     new_IPv4Network value (negb host_bit) st = (Returns n, st') ->
     result (run (ipv4 value true strict host_bit) st) = Returns (VIPv4Network n) /\
     result (run (validator "ipv4" ipv4 value true strict host_bit) st)
     = Returns (Passed (VIPv4Network n))) /\
  (forall (st : state) (value : string) (strict host_bit : bool) a,
     new_IPv4Address (inr value) = Returns a ->
     result (run (ipv4 value false strict host_bit) st) = Returns (VIPv4Address a) /\
     result (run (validator "ipv4" ipv4 value false strict host_bit) st)
     = Returns (Passed (VIPv4Address a))) /\
  (forall (st st' : state) (value : string) (strict host_bit : bool) n,
     strict_violation value true strict = false ->
     new_IPv6Network value (negb host_bit) st = (Returns n, st') ->
     result (run (ipv6 value true strict host_bit) st) = Returns (VIPv6Network n) /\
     result (run (validator "ipv6" ipv6 value true strict host_bit) st)
     = Returns (Passed (VIPv6Network n))) /\
  (forall (st : state) (value : string) (strict host_bit : bool) a,
     new_IPv6Address (inr value) = Returns a ->
     result (run (ipv6 value false strict host_bit) st) = Returns (VIPv6Address a) /\
     result (run (validator "ipv6" ipv6 value false strict host_bit) st)
     = Returns (Passed (VIPv6Address a))) /\
  (forall (st : state) (value : string) (cidr strict host_bit : bool) v,
     (result (run (ipv4 value cidr strict host_bit) st) = Returns v \/
      result (run (ipv6 value cidr strict host_bit) st) = Returns v) ->
     v <> VBool false ->
     is_object v /\ truthy v = true /\ v <> VBool true) /\
  result (run (ipv4_default "123.0.0.7") initial) =
    Returns (VIPv4Network {| network_address4 := {| _ip4 := 2063597575 |};
                             netmask4 := {| _ip4 := 4294967295 |};
                             _prefixlen4 := 32 |}) /\
  failed (result (run (ipv4_default "900.80.70.11") initial)).
Proof.
  split; [|split; [|split; [|split; [|split; [|split]]]]].
  - intros st st' value strict host_bit n Hs Hn.
    pose proof (new_IPv4Network_nonempty _ _ _ _ _ Hn) as Hne.
    assert (result (run (ipv4 value true strict host_bit) st)
            = Returns (VIPv4Network n)) as Hr.
    { rewrite ipv4_validate.
      rewrite (run_validate_returns _ _ _ _ _ _ st st' (VIPv4Network n) Hne Hs);
        [reflexivity|].
      cbn [the_call]. now rewrite exec_network4, Hn. }
    split; [exact Hr | now rewrite (run_validator _ _ _ _ _ _ _ _ Hr)].
  - intros st value strict host_bit a Ha.
    pose proof (new_IPv4Address_nonempty _ _ Ha) as Hne.
    assert (result (run (ipv4 value false strict host_bit) st)
            = Returns (VIPv4Address a)) as Hr.
    { rewrite ipv4_validate.
      rewrite (run_validate_returns _ _ _ _ _ _ st st (VIPv4Address a) Hne);
        [reflexivity | reflexivity |].
      cbn [the_call]. now rewrite exec_address4, Ha. }
    split; [exact Hr | now rewrite (run_validator _ _ _ _ _ _ _ _ Hr)].
  - intros st st' value strict host_bit n Hs Hn.
    pose proof (new_IPv6Network_nonempty _ _ _ _ _ Hn) as Hne.
    assert (result (run (ipv6 value true strict host_bit) st)
            = Returns (VIPv6Network n)) as Hr.
    { rewrite ipv6_validate.
      rewrite (run_validate_returns _ _ _ _ _ _ st st' (VIPv6Network n) Hne Hs);
        [reflexivity|].
      cbn [the_call]. now rewrite exec_network6, Hn. }
    split; [exact Hr | now rewrite (run_validator _ _ _ _ _ _ _ _ Hr)].
  - intros st value strict host_bit a Ha.
    pose proof (new_IPv6Address_nonempty _ _ Ha) as Hne.
    assert (result (run (ipv6 value false strict host_bit) st)
            = Returns (VIPv6Address a)) as Hr.
    { rewrite ipv6_validate.
      rewrite (run_validate_returns _ _ _ _ _ _ st st (VIPv6Address a) Hne);
        [reflexivity | reflexivity |].
      cbn [the_call]. now rewrite exec_address6, Ha. }
    split; [exact Hr | now rewrite (run_validator _ _ _ _ _ _ _ _ Hr)].
  - intros st value cidr strict host_bit v Hr Hv.
    assert (failed (Returns v) \/ succeeded (Returns v)) as [Hf|(v' & [= <-] & Hobj)].
    { destruct Hr as [Hr|Hr]; rewrite <- Hr.
      - rewrite ipv4_validate. apply no_escape_validate.
      - rewrite ipv6_validate. apply no_escape_validate. }
    + injection Hf as ->. contradiction.
    + destruct v; [destruct Hobj|..]; repeat split; discriminate.
  - vm_compute. reflexivity.
  - reflexivity.
Qed.

Lemma success_returns_parsed_object_witness :
  result (run (ipv6 "::1" false false true) initial)
  = Returns (VIPv6Address {| _ip6 := 1; _scope_id := None |}) /\
  result (run (validator "ipv6" ipv6 "::1" false false true) initial)
  = Returns (Passed (VIPv6Address {| _ip6 := 1; _scope_id := None |})).
Proof.
  apply (proj1 (proj2 (proj2 (proj2 success_returns_parsed_object)))
           initial "::1" false true {| _ip6 := 1; _scope_id := None |}).
  vm_compute. reflexivity.
Defined.

(* ===================================================================== *)
(** * Host bits                                                           *)
(* ===================================================================== *)

Section HostBits.

(** [packed & netmask != packed]: some bit of the address lies outside the
    mask. *)
Lemma host_bits_set (a m : Z) :
  (exists i, Z.testbit a i = true /\ Z.testbit m i = false) ->
  (Z.land a m =? a) = false.
Proof.
  intros (i & Ha & Hm). apply Z.eqb_neq. intros H.
  apply (f_equal (fun z => Z.testbit z i)) in H.
  rewrite Z.land_spec, Ha, Hm in H. discriminate H.
Qed.

Lemma host_bits_clear (a m : Z) :
  (forall i, Z.testbit a i = true -> Z.testbit m i = true) ->
  (Z.land a m =? a) = true.
Proof.
  intros H. apply Z.eqb_eq, Z.bits_inj'. intros i _.
  rewrite Z.land_spec. destruct (Z.testbit a i) eqn:Ha; [|reflexivity].
  now rewrite (H i Ha).
Qed.

Lemma land_bound (n a m : Z) :
  0 <= n -> 0 <= m < 2 ^ n -> 0 <= Z.land a m < 2 ^ n.
Proof.
  intros Hn Hm.
  assert (Z.land a m = Z.land a m mod 2 ^ n) as ->.
  { rewrite <- (Z.land_ones _ _ Hn), <- Z.land_assoc, (Z.land_ones m _ Hn).
    now rewrite (Z.mod_small m). }
  apply Z.mod_pos_bound. lia.
Qed.

Lemma new_IPv4Address_int (n : Z) :
  new_IPv4Address (inl n) =
  if (n <? 0) || (2 ^ 32 - 1 <? n) then Raises AddressValueError
  else Returns {| _ip4 := n |}.
Proof.
  unfold new_IPv4Address, _check_int_address. simpl _ALL_ONES.
  change (2 ^ IPV4LENGTH - 1) with (2 ^ 32 - 1).
  destruct (n <? 0); [reflexivity|]. now destruct (_ <? n).
Qed.

Lemma new_IPv6Address_int (n : Z) :
  new_IPv6Address (inl n) =
  if (n <? 0) || (2 ^ 128 - 1 <? n) then Raises AddressValueError
  else Returns {| _ip6 := n; _scope_id := None |}.
Proof.
  unfold new_IPv6Address, _check_int_address. simpl _ALL_ONES.
  change (2 ^ IPV6LENGTH - 1) with (2 ^ 128 - 1).
  destruct (n <? 0); [reflexivity|]. now destruct (_ <? n).
Qed.

(** A netmask that [_make_netmask] computed is an address of the family. *)
Lemma make_netmask4_range (arg : pyarg) (nm : IPv4Address) (plen : Z) :
  make_netmask4 arg = Returns (nm, plen) -> 0 <= _ip4 nm < 2 ^ 32.
Proof.
  unfold make_netmask4. intros H.
  destruct (match arg with inl _ => _ | inr _ => _ end) as [p|]; [|discriminate H].
  cbn [Py.bind] in H. rewrite new_IPv4Address_int in H.
  destruct (_ <? 0) eqn:E1; [discriminate H|].
  destruct (_ <? _ip_int_from_prefix _ _) eqn:E2; [discriminate H|].
  cbn in H. injection H as <- _. cbn [_ip4].
  apply Z.ltb_ge in E1, E2. lia.
Qed.

Lemma make_netmask6_range (arg : pyarg) (nm : IPv6Address) (plen : Z) :
  make_netmask6 arg = Returns (nm, plen) -> 0 <= _ip6 nm < 2 ^ 128.
Proof.
  unfold make_netmask6. intros H.
  destruct (match arg with inl _ => _ | inr _ => _ end) as [p|]; [|discriminate H].
  cbn [Py.bind] in H. rewrite new_IPv6Address_int in H.
  destruct (_ <? 0) eqn:E1; [discriminate H|].
  destruct (_ <? _ip_int_from_prefix _ _) eqn:E2; [discriminate H|].
  cbn in H. injection H as <- _. cbn [_ip6].
  apply Z.ltb_ge in E1, E2. lia.
Qed.

(** With caches that only the library filled, [_make_netmask] returns what
    it would compute. *)
Lemma make_netmask4_cached (arg : pyarg) (st : state) entry :
  caches_ok st -> make_netmask4 arg = Returns entry ->
  exists st', _make_netmask4 arg st = (Returns entry, st').
Proof.
  intros [Hok _] Hf.
  destruct (make_netmask4_step arg st) as [e He|e st' _ He _|e _ He _].
  - apply Hok in He. rewrite Hf in He. injection He as ->. eauto.
  - rewrite Hf in He. injection He as ->. eauto.
  - rewrite Hf in He. discriminate He.
Qed.

Lemma make_netmask6_cached (arg : pyarg) (st : state) entry :
  caches_ok st -> make_netmask6 arg = Returns entry ->
  exists st', _make_netmask6 arg st = (Returns entry, st').
Proof.
  intros [_ Hok] Hf.
  destruct (make_netmask6_step arg st) as [e He|e st' _ He _|e _ He _].
  - apply Hok in He. rewrite Hf in He. injection He as ->. eauto.
  - rewrite Hf in He. injection He as ->. eauto.
  - rewrite Hf in He. discriminate He.
Qed.

(** A network that the strict constructor accepts is built the same way by
    the lenient one. *)
Lemma strict_network4_lenient (value : string) (st st' : state) n :
  new_IPv4Network value true st = (Returns n, st') ->
  new_IPv4Network value false st = (Returns n, st').
Proof.
  rewrite !new_IPv4Network_unfold.
  destruct (_split_addr_prefix _ _) as [[addr mask]|]; [|auto].
  destruct (new_IPv4Address (inr addr)) as [a|]; [|auto].
  destruct (_make_netmask4 mask st) as [[[nm plen]|] st1]; [|auto].
  destruct (_ =? _); [auto | discriminate].
Qed.

Lemma strict_network6_lenient (value : string) (st st' : state) n :
  new_IPv6Network value true st = (Returns n, st') ->
  new_IPv6Network value false st = (Returns n, st').
Proof.
  rewrite !new_IPv6Network_unfold.
  destruct (_split_addr_prefix _ _) as [[addr mask]|]; [|auto].
  destruct (new_IPv6Address (inr addr)) as [a|]; [|auto].
  destruct (_make_netmask6 mask st) as [[[nm plen]|] st1]; [|auto].
  destruct (_ =? _); [auto | discriminate].
Qed.

Variables (network : string -> bool -> call) (address : string -> call).
Hypothesis lenient :
  forall value st st' v,
    exec (network value true) st = (Returns v, st') ->
    exec (network value false) st = (Returns v, st').

Lemma validate_host_bit_monotone (st : state) (value : string) (strict : bool) :
  succeeded (result (run (validate network address value true strict false) st)) ->
  result (run (validate network address value true strict true) st) =
  result (run (validate network address value true strict false) st) /\
  final (run (validate network address value true strict true) st) =
  final (run (validate network address value true strict false) st).
Proof.
  intros (v & Hr & Hv).
  destruct (run_validate_object _ _ _ _ _ _ _ _ Hr Hv) as (Hne & Hs & He).
  cbn [the_call negb] in He. apply lenient in He.
  rewrite (run_validate_returns network address value true strict true
             st _ v Hne Hs He).
  now rewrite Hr.
Qed.

End HostBits.

(** C10.  With [cidr=True], for every value, every [strict] and every state
    of the library: if the run with [host_bit=False] succeeds, the run with
    [host_bit=True] from the same state succeeds too, with the same object
    and the same final state. *)
Theorem host_bit_monotone (st : state) (value : string) (strict : bool) :
  (succeeded (result (run (ipv4 value true strict false) st)) ->
   succeeded (result (run (ipv4 value true strict true) st)) /\
   result (run (ipv4 value true strict true) st) =
     result (run (ipv4 value true strict false) st) /\
   final (run (ipv4 value true strict true) st) =
     final (run (ipv4 value true strict false) st)) /\
  (succeeded (result (run (ipv6 value true strict false) st)) ->
   succeeded (result (run (ipv6 value true strict true) st)) /\
   result (run (ipv6 value true strict true) st) =
     result (run (ipv6 value true strict false) st) /\
   final (run (ipv6 value true strict true) st) =
     final (run (ipv6 value true strict false) st)).
Proof.
  split; intros H.
  - rewrite ipv4_validate in *.
    destruct (validate_host_bit_monotone IPv4Network_ IPv4Address_) with
      (st := st) (value := value) (strict := strict) as [Hr Hf]; [|exact H|].
    { intros v s s' x. rewrite !exec_network4.
      destruct (new_IPv4Network v true s) as [[n|e] s1] eqn:E; [|discriminate].
      intros [= <- <-]. now rewrite (strict_network4_lenient _ _ _ _ E). }
    split; [now rewrite Hr | split; assumption].
  - rewrite ipv6_validate in *.
    destruct (validate_host_bit_monotone IPv6Network_ IPv6Address_) with
      (st := st) (value := value) (strict := strict) as [Hr Hf]; [|exact H|].
    { intros v s s' x. rewrite !exec_network6.
      destruct (new_IPv6Network v true s) as [[n|e] s1] eqn:E; [|discriminate].
      intros [= <- <-]. now rewrite (strict_network6_lenient _ _ _ _ E). }
    split; [now rewrite Hr | split; assumption].
Qed.

Lemma host_bit_monotone_witness :
  succeeded (result (run (ipv4 "192.168.1.0/24" true true true) initial)) /\
  succeeded (result (run (ipv6 "fe80::/64" true false true) initial)).
Proof.
  split.
  - apply (proj1 (host_bit_monotone initial "192.168.1.0/24" true)).
    eexists. split; [vm_compute; reflexivity | exact I].
  - apply (proj2 (host_bit_monotone initial "fe80::/64" false)).
    eexists. split; [vm_compute; reflexivity | exact I].
Defined.

Section StrictParse.

(** [IPv4Network.__init__] once its three parse steps have succeeded. *)
Lemma new_IPv4Network_parsed (st : state) (value addr : string) (mask : pyarg)
    (strict : bool) a nm plen :
  caches_ok st ->
  _split_addr_prefix BaseV4.class value = Returns (addr, mask) ->
  new_IPv4Address (inr addr) = Returns a ->
  make_netmask4 mask = Returns (nm, plen) ->
  exists st',
    new_IPv4Network value strict st =
    (if Z.land (_ip4 a) (_ip4 nm) =? _ip4 a then
       Returns {| network_address4 := a; netmask4 := nm; _prefixlen4 := plen |}
     else if strict then Raises ValueError
     else Returns {| network_address4 := {| _ip4 := Z.land (_ip4 a) (_ip4 nm) |};
                     netmask4 := nm; _prefixlen4 := plen |},
     st').
Proof.
  intros Hok Hs Ha Hm.
  destruct (make_netmask4_cached mask st _ Hok Hm) as [st' Hc].
  exists st'. rewrite new_IPv4Network_unfold, Hs, Ha, Hc.
  destruct (_ =? _); [reflexivity|]. destruct strict; [reflexivity|].
  rewrite new_IPv4Address_int.
  pose proof (land_bound 32 (_ip4 a) (_ip4 nm) ltac:(lia)
                (make_netmask4_range _ _ _ Hm)) as Hb.
  destruct (Z.ltb_spec (Z.land (_ip4 a) (_ip4 nm)) 0); [lia|].
  destruct (Z.ltb_spec (2 ^ 32 - 1) (Z.land (_ip4 a) (_ip4 nm))); [lia|].
  reflexivity.
Qed.

Lemma new_IPv6Network_parsed (st : state) (value addr : string) (mask : pyarg)
    (strict : bool) a nm plen :
  caches_ok st ->
  _split_addr_prefix BaseV6.class value = Returns (addr, mask) ->
  new_IPv6Address (inr addr) = Returns a ->
  make_netmask6 mask = Returns (nm, plen) ->
  exists st',
    new_IPv6Network value strict st =
    (if Z.land (_ip6 a) (_ip6 nm) =? _ip6 a then
       Returns {| network_address6 := a; netmask6 := nm; _prefixlen6 := plen |}
     else if strict then Raises ValueError
     else Returns {| network_address6 :=
                       {| _ip6 := Z.land (_ip6 a) (_ip6 nm); _scope_id := None |};
                     netmask6 := nm; _prefixlen6 := plen |},
     st').
Proof.
  intros Hok Hs Ha Hm.
  destruct (make_netmask6_cached mask st _ Hok Hm) as [st' Hc].
  exists st'. rewrite new_IPv6Network_unfold, Hs, Ha, Hc.
  destruct (_ =? _); [reflexivity|]. destruct strict; [reflexivity|].
  rewrite new_IPv6Address_int.
  pose proof (land_bound 128 (_ip6 a) (_ip6 nm) ltac:(lia)
                (make_netmask6_range _ _ _ Hm)) as Hb.
  destruct (Z.ltb_spec (Z.land (_ip6 a) (_ip6 nm)) 0); [lia|].
  destruct (Z.ltb_spec (2 ^ 128 - 1) (Z.land (_ip6 a) (_ip6 nm))); [lia|].
  reflexivity.
Qed.

Variables (network : string -> bool -> call) (address : string -> call).

(** The library raised a [ValueError]: the validator returns [False]. *)
Lemma run_validate_raises (value : string) (cidr strict host_bit : bool)
    (st st' : state) (e : exn) :
  exec (the_call network address value cidr host_bit) st = (Raises e, st') ->
  value_error e = true ->
  failed (result (run (validate network address value cidr strict host_bit) st)).
Proof.
  intros He Hv.
  destruct (string_dec value "") as [->|Hne]; [reflexivity|].
  rewrite (run_validate _ _ _ _ _ _ _ Hne).
  destruct (strict_violation value cidr strict); [reflexivity|].
  cbv zeta. rewrite He, (value_error_handled e Hv). reflexivity.
Qed.

End StrictParse.

Lemma split_addr_prefix_nonempty (c : cls) (value addr : string) (mask : pyarg) :
  _split_addr_prefix c value = Returns (addr, mask) -> addr <> "" -> value <> "".
Proof. intros H Hne ->. cbn in H. injection H as <- _. contradiction. Qed.

(** C3.  With [cidr=True] the body calls the network constructor with
    [strict = not host_bit].  So with [host_bit=False], for a value whose
    address and mask parse: if some bit of the address lies outside the
    mask the validator fails (whatever [strict] is), and if none does it
    returns the network; with [host_bit=True] it returns the network of the
    masked address either way (both when the strict test of the body lets
    the value through).  [ipv4("192.168.1.1/24", host_bit=False)]
    fails and [ipv4("192.168.1.0/24", host_bit=False)] succeeds. *)
Theorem host_bit_false_is_strict_parse :
  (forall (st : state) (value : string) (host_bit : bool),
     value <> "" ->
     calls (events (run (ipv4 value true false host_bit) st))
     = [IPv4Network_ value (negb host_bit)] /\
     calls (events (run (ipv6 value true false host_bit) st))
     = [IPv6Network_ value (negb host_bit)]) /\
  (forall (st : state) (value addr : string) (mask : pyarg) a nm plen,
     caches_ok st ->
     _split_addr_prefix BaseV4.class value = Returns (addr, mask) ->
     new_IPv4Address (inr addr) = Returns a ->
     make_netmask4 mask = Returns (nm, plen) ->
     ((exists i, Z.testbit (_ip4 a) i = true /\ Z.testbit (_ip4 nm) i = false) ->
      forall strict, failed (result (run (ipv4 value true strict false) st))) /\
     ((forall i, Z.testbit (_ip4 a) i = true -> Z.testbit (_ip4 nm) i = true) ->
      forall strict, strict_violation value true strict = false ->
      result (run (ipv4 value true strict false) st) =
      Returns (VIPv4Network {| network_address4 := a; netmask4 := nm;
                               _prefixlen4 := plen |})) /\
     (forall strict, strict_violation value true strict = false ->
      exists na,
        result (run (ipv4 value true strict true) st) =
        Returns (VIPv4Network {| network_address4 := na; netmask4 := nm;
                                 _prefixlen4 := plen |}) /\
        _ip4 na = Z.land (_ip4 a) (_ip4 nm))) /\
  (forall (st : state) (value addr : string) (mask : pyarg) a nm plen,
     caches_ok st ->
     _split_addr_prefix BaseV6.class value = Returns (addr, mask) ->
     new_IPv6Address (inr addr) = Returns a ->
     make_netmask6 mask = Returns (nm, plen) ->
     ((exists i, Z.testbit (_ip6 a) i = true /\ Z.testbit (_ip6 nm) i = false) ->
      forall strict, failed (result (run (ipv6 value true strict false) st))) /\
     ((forall i, Z.testbit (_ip6 a) i = true -> Z.testbit (_ip6 nm) i = true) ->
      forall strict, strict_violation value true strict = false ->
      result (run (ipv6 value true strict false) st) =
      Returns (VIPv6Network {| network_address6 := a; netmask6 := nm;
                               _prefixlen6 := plen |})) /\
     (forall strict, strict_violation value true strict = false ->
      exists na,
        result (run (ipv6 value true strict true) st) =
        Returns (VIPv6Network {| network_address6 := na; netmask6 := nm;
                                 _prefixlen6 := plen |}) /\
        _ip6 na = Z.land (_ip6 a) (_ip6 nm))) /\
  failed (result (run (ipv4 "192.168.1.1/24" true false false) initial)) /\
  succeeded (result (run (ipv4 "192.168.1.0/24" true false false) initial)).
Proof.
  split; [|split; [|split; [|split]]].
  - intros st value host_bit Hne. rewrite ipv4_validate, ipv6_validate.
    split; now rewrite calls_validate.
  - intros st value addr mask a nm plen Hok Hs Ha Hm.
    assert (value <> "") as Hne.
    { eapply split_addr_prefix_nonempty; [exact Hs|].
      eapply new_IPv4Address_nonempty, Ha. }
    rewrite ipv4_validate. split; [|split].
    + intros Hbits strict.
      destruct (new_IPv4Network_parsed st value addr mask true a nm plen
                  Hok Hs Ha Hm) as [st' Hn].
      rewrite (host_bits_set _ _ Hbits) in Hn.
      eapply run_validate_raises with (e := ValueError) (st' := st');
        [|reflexivity].
      cbn [the_call negb]. now rewrite exec_network4, Hn.
    + intros Hbits strict Hsv.
      destruct (new_IPv4Network_parsed st value addr mask true a nm plen
                  Hok Hs Ha Hm) as [st' Hn].
      rewrite (host_bits_clear _ _ Hbits) in Hn.
      erewrite run_validate_returns; [reflexivity | exact Hne | exact Hsv |].
      cbn [the_call negb]. now rewrite exec_network4, Hn.
    + intros strict Hsv.
      destruct (new_IPv4Network_parsed st value addr mask false a nm plen
                  Hok Hs Ha Hm) as [st' Hn].
      destruct (Z.eqb_spec (Z.land (_ip4 a) (_ip4 nm)) (_ip4 a)) as [E|E].
      * exists a. split; [|now rewrite E].
        erewrite run_validate_returns; [reflexivity | exact Hne | exact Hsv |].
        cbn [the_call negb]. now rewrite exec_network4, Hn.
      * exists {| _ip4 := Z.land (_ip4 a) (_ip4 nm) |}. split; [|reflexivity].
        erewrite run_validate_returns; [reflexivity | exact Hne | exact Hsv |].
        cbn [the_call negb]. now rewrite exec_network4, Hn.
  - intros st value addr mask a nm plen Hok Hs Ha Hm.
    assert (value <> "") as Hne.
    { eapply split_addr_prefix_nonempty; [exact Hs|].
      eapply new_IPv6Address_nonempty, Ha. }
    rewrite ipv6_validate. split; [|split].
    + intros Hbits strict.
      destruct (new_IPv6Network_parsed st value addr mask true a nm plen
                  Hok Hs Ha Hm) as [st' Hn].
      rewrite (host_bits_set _ _ Hbits) in Hn.
      eapply run_validate_raises with (e := ValueError) (st' := st');
        [|reflexivity].
      cbn [the_call negb]. now rewrite exec_network6, Hn.
    + intros Hbits strict Hsv.
      destruct (new_IPv6Network_parsed st value addr mask true a nm plen
                  Hok Hs Ha Hm) as [st' Hn].
      rewrite (host_bits_clear _ _ Hbits) in Hn.
      erewrite run_validate_returns; [reflexivity | exact Hne | exact Hsv |].
      cbn [the_call negb]. now rewrite exec_network6, Hn.
    + intros strict Hsv.
      destruct (new_IPv6Network_parsed st value addr mask false a nm plen
                  Hok Hs Ha Hm) as [st' Hn].
      destruct (Z.eqb_spec (Z.land (_ip6 a) (_ip6 nm)) (_ip6 a)) as [E|E].
      * exists a. split; [|now rewrite E].
        erewrite run_validate_returns; [reflexivity | exact Hne | exact Hsv |].
        cbn [the_call negb]. now rewrite exec_network6, Hn.
      * exists {| _ip6 := Z.land (_ip6 a) (_ip6 nm); _scope_id := None |}.
        split; [|reflexivity].
        erewrite run_validate_returns; [reflexivity | exact Hne | exact Hsv |].
        cbn [the_call negb]. now rewrite exec_network6, Hn.
  - reflexivity.
  - eexists. split; [vm_compute; reflexivity | exact I].
Qed.

Lemma caches_ok_initial : caches_ok initial.
Proof. split; intros arg entry H; cbn in H; now rewrite lookup_empty in H. Qed.

Lemma host_bit_false_is_strict_parse_witness :
  failed (result (run (ipv4 "192.168.1.1/24" true true false) initial)).
Proof.
  refine (proj1 (proj1 (proj2 host_bit_false_is_strict_parse)
                   initial "192.168.1.1/24" "192.168.1.1" (inr "24")
                   {| _ip4 := 3232235777 |} {| _ip4 := 4294967040 |} 24
                   caches_ok_initial _ _ _) _ true).
  - reflexivity.
  - reflexivity.
  - vm_compute. reflexivity.
  - exists 0. split; reflexivity.
Defined.

(* ===================================================================== *)
(** * Determinism and the netmask caches                                  *)
(* ===================================================================== *)

Section Caches.






(** With caches that only the library filled, a cache holds what would be
    computed anyway, and a call keeps the caches that way. *)
Lemma make_netmask4_ok (arg : pyarg) (st : state) :
  caches_ok st ->
  (_make_netmask4 arg st).1 = make_netmask4 arg /\
  caches_ok (_make_netmask4 arg st).2.
Proof.
  intros [H4 H6]. unfold _make_netmask4.
  destruct (v4_netmask_cache st !! arg) as [entry|] eqn:Hc; cbn [fst snd].
  - split; [symmetry; now apply H4 | now split].
  - destruct (make_netmask4 arg) as [entry|e] eqn:Hf; cbn [fst snd].
    + split; [reflexivity|]. split; [|exact H6].
      cbn [v4_netmask_cache]. intros arg' entry' Hl.
      destruct (decide (arg = arg')) as [<-|Hne].
      * rewrite lookup_insert_eq in Hl. now injection Hl as <-.
      * rewrite lookup_insert_ne in Hl by exact Hne. now apply H4.
    + split; [reflexivity | now split].
Qed.

Lemma make_netmask6_ok (arg : pyarg) (st : state) :
  caches_ok st ->
  (_make_netmask6 arg st).1 = make_netmask6 arg /\
  caches_ok (_make_netmask6 arg st).2.
Proof.
  intros [H4 H6]. unfold _make_netmask6.
  destruct (v6_netmask_cache st !! arg) as [entry|] eqn:Hc; cbn [fst snd].
  - split; [symmetry; now apply H6 | now split].
  - destruct (make_netmask6 arg) as [entry|e] eqn:Hf; cbn [fst snd].
    + split; [reflexivity|]. split; [exact H4|].
      cbn [v6_netmask_cache]. intros arg' entry' Hl.
      destruct (decide (arg = arg')) as [<-|Hne].
      * rewrite lookup_insert_eq in Hl. now injection Hl as <-.
      * rewrite lookup_insert_ne in Hl by exact Hne. now apply H6.
    + split; [reflexivity | now split].
Qed.




Variables (network : string -> bool -> call) (address : string -> call).



End Caches.

Section Frame.





Variables (network : string -> bool -> call) (address : string -> call).


End Frame.

(** The caches are real state: run on empty caches, [ipv4("1.1.1.1/8")]
    leaves an entry for ["8"] in the IPv4 cache.  While only the library
    writes to them, by the lemmas above, they never change what a validator
    returns. *)
Example netmask_cache_fills :
  v4_netmask_cache initial !! (inr "8" : pyarg) = None /\
  v4_netmask_cache (final (run (ipv4_default "1.1.1.1/8") initial))
    !! (inr "8" : pyarg)
  = Some ({| _ip4 := 4278190080 |}, 8).
Proof. split; [apply lookup_empty | vm_compute; reflexivity]. Qed.

Section NoCidr.



End NoCidr.

Section NotPure.

(** The specification's sentence does not hold of either validator: a call
    writes to the library's cache, and its result depends on what the cache
    holds. *)
Lemma ipv4_mutates_state : ~ mutates_no_state ipv4.
Proof.
  intros H. specialize (H "10.9.8.7/20" true false false initial).
  apply (f_equal (fun st => v4_netmask_cache st !! (inr "20" : pyarg))) in H.
  vm_compute in H. discriminate H.
Qed.

Lemma ipv6_mutates_state : ~ mutates_no_state ipv6.
Proof.
  intros H. specialize (H "fe80::1/65" true false false initial).
  apply (f_equal (fun st => v6_netmask_cache st !! (inr "65" : pyarg))) in H.
  vm_compute in H. discriminate H.
Qed.

Lemma ipv4_reads_state : ~ reads_no_state ipv4.
Proof.
  intros H.
  specialize (H "10.0.8.0/21" true false false initial
                {| v4_netmask_cache := {[ (inr "21" : pyarg) := ({| _ip4 := 0 |}, 0) ]};
                   v6_netmask_cache := ∅ |}).
  vm_compute in H. discriminate H.
Qed.

Lemma ipv6_reads_state : ~ reads_no_state ipv6.
Proof.
  intros H.
  specialize (H "fe80::/65" true false false initial
                {| v4_netmask_cache := ∅;
                   v6_netmask_cache :=
                     {[ (inr "65" : pyarg) :=
                          ({| _ip6 := 0; _scope_id := None |}, 0) ]} |}).
  vm_compute in H. discriminate H.
Qed.

End NotPure.




(* ===================================================================== *)
(** * The two families                                                    *)
(* ===================================================================== *)

Section Families.

Lemma parse_octet_digits (p : string) (z : Z) :
  BaseV4._parse_octet p = Returns z -> forallb_str is_digit_char p = true.
Proof.
  unfold BaseV4._parse_octet. intros H.
  destruct (truthy_str p); [|discriminate H]. cbn [negb] in H.
  destruct (isascii p && isdigit p) eqn:E; [|discriminate H].
  apply andb_true_iff in E as [_ E]. unfold isdigit in E.
  now apply andb_true_iff in E as [_ E].
Qed.

(** An IPv4 address has no colon. *)
Lemma IPv4Address_no_colon (value : string) (a : IPv4Address) :
  new_IPv4Address (inr value) = Returns a -> contains colon value = false.
Proof.
  unfold new_IPv4Address, BaseV4._ip_int_from_string. intros H.
  destruct (contains slash value); [discriminate H|].
  destruct (truthy_str value); [|discriminate H]. cbn [negb] in H.
  destruct (length (split dot value) =? 4)%nat; [|discriminate H].
  cbn [negb] in H.
  destruct (mapM BaseV4._parse_octet (split dot value)) as [bs|e] eqn:E.
  - apply mapM_returns in E.
    rewrite (contains_split colon dot) by discriminate.
    apply not_true_is_false. intros Hex.
    apply existsb_exists in Hex as (p & Hin & Hp).
    destruct (proj1 (List.Forall_forall _ _) E p Hin) as [z Hz].
    apply parse_octet_digits in Hz.
    rewrite (forallb_str_contains is_digit_char colon p Hz) in Hp;
      [discriminate Hp | reflexivity].
  - destruct e; discriminate H.
Qed.

Lemma contains_false_split (sep : ascii) (s : string) :
  contains sep s = false -> length (split sep s) = 1%nat.
Proof.
  rewrite split_length, contains_count. intros H.
  apply negb_false_iff, Nat.eqb_eq in H. now rewrite H.
Qed.

Lemma ip_int_from_string6_colon (s : string) (n : Z) :
  BaseV6._ip_int_from_string s = Returns n -> contains colon s = true.
Proof.
  unfold BaseV6._ip_int_from_string. intros H.
  destruct (truthy_str s); [|discriminate H]. cbn [negb] in H.
  destruct (contains colon s) eqn:E; [reflexivity|].
  rewrite (contains_false_split _ _ E) in H. discriminate H.
Qed.

(** An IPv6 address has a colon. *)
Lemma IPv6Address_colon (value : string) (a : IPv6Address) :
  new_IPv6Address (inr value) = Returns a -> contains colon value = true.
Proof.
  unfold new_IPv6Address, BaseV6._split_scope_id. intros H.
  destruct (contains slash value); [discriminate H|].
  pose proof (partition_head_contains colon percent value) as Hp.
  destruct (partition percent value) as [[addr sep] scope]. cbn [fst] in Hp.
  apply Hp.
  destruct (negb sep); cbn in H.
  - destruct (BaseV6._ip_int_from_string addr) as [n|] eqn:E; [|discriminate H].
    now apply ip_int_from_string6_colon in E.
  - destruct (negb (truthy_str scope) || contains percent scope);
      [discriminate H|]. cbn in H.
    destruct (BaseV6._ip_int_from_string addr) as [n|] eqn:E; [|discriminate H].
    now apply ip_int_from_string6_colon in E.
Qed.

End Families.

(** C6.  The validators are family-exclusive on bare addresses: a value
    that [IPv4Address] parses fails [ipv6] with [cidr=False], and a value
    that [IPv6Address] parses fails [ipv4] with [cidr=False], whatever the
    other flags and the state of the library.  The IPv4-mapped notation is
    IPv6 syntax: [ipv6("::ffff:192.0.2.128")] succeeds, with and without
    [cidr], and [ipv4] rejects the value; [ipv6("abc.0.0.1")] fails. *)
Theorem family_exclusive :
  (forall (st : state) (value : string) (strict host_bit : bool) a,
     new_IPv4Address (inr value) = Returns a ->
     failed (result (run (ipv6 value false strict host_bit) st))) /\
  (forall (st : state) (value : string) (strict host_bit : bool) a,
     new_IPv6Address (inr value) = Returns a ->
     failed (result (run (ipv4 value false strict host_bit) st))) /\
  succeeded (result (run (ipv6_default "::ffff:192.0.2.128") initial)) /\
  succeeded (result (run (ipv6 "::ffff:192.0.2.128" false false true) initial)) /\
  failed (result (run (ipv4 "::ffff:192.0.2.128" false false true) initial)) /\
  failed (result (run (ipv4_default "::ffff:192.0.2.128") initial)) /\
  failed (result (run (ipv6_default "abc.0.0.1") initial)).
Proof.
  split; [|split; [|split; [|split; [|split; [|split]]]]].
  - intros st value strict host_bit a Ha. rewrite ipv6_validate.
    pose proof (post_new_IPv6Address (inr value)) as Hp.
    destruct (new_IPv6Address (inr value)) as [a6|e] eqn:E.
    { apply IPv6Address_colon in E. apply IPv4Address_no_colon in Ha.
      congruence. }
    eapply run_validate_raises with (e := e) (st' := st); [|exact Hp].
    cbn [the_call]. now rewrite exec_address6, E.
  - intros st value strict host_bit a Ha. rewrite ipv4_validate.
    pose proof (post_new_IPv4Address (inr value)) as Hp.
    destruct (new_IPv4Address (inr value)) as [a4|e] eqn:E.
    { apply IPv4Address_no_colon in E. apply IPv6Address_colon in Ha.
      congruence. }
    eapply run_validate_raises with (e := e) (st' := st); [|exact Hp].
    cbn [the_call]. now rewrite exec_address4, E.
  - eexists. split; [vm_compute; reflexivity | exact I].
  - eexists. split; [vm_compute; reflexivity | exact I].
  - reflexivity.
  - reflexivity.
  - reflexivity.
Qed.

Lemma family_exclusive_witness :
  failed (result (run (ipv6 "192.0.2.128" false false true) initial)) /\
  failed (result (run (ipv4 "2001:db8::1" false true false) initial)).
Proof.
  split.
  - apply (proj1 family_exclusive initial "192.0.2.128" false true
             {| _ip4 := 3221226112 |}).
    reflexivity.
  - apply (proj1 (proj2 family_exclusive) initial "2001:db8::1" true false
             {| _ip6 := 42540766411282592856903984951653826561;
                _scope_id := None |}).
    vm_compute. reflexivity.
Defined.

(* ===================================================================== *)
(** * What the flags accept                                               *)
(* ===================================================================== *)

Section Accepts.

Lemma failed_not_succeeded (r : outcome pyval) : failed r -> ~ succeeded r.
Proof. intros -> (v & [= <-] & []). Qed.

Lemma count_contains (c : ascii) (s : string) :
  (1 <= count c s)%nat -> contains c s = true.
Proof.
  rewrite contains_count. intros H.
  destruct (Nat.eqb_spec (count c s) 0%nat); [lia | reflexivity].
Qed.

Lemma split_addr_prefix_slashes (c : cls) (value : string) :
  (2 <= count slash value)%nat ->
  _split_addr_prefix c value = Raises AddressValueError.
Proof.
  intros H. unfold _split_addr_prefix, _split_optional_netmask.
  rewrite split_length.
  destruct (Nat.ltb_spec 2%nat (S (count slash value))); [reflexivity | lia].
Qed.

Variables (network : string -> bool -> call) (address : string -> call).

Lemma validate_strict_iff (st : state) (value : string) (host_bit : bool) :
  succeeded (result (run (validate network address value true true host_bit) st))
  <->
  count slash value = 1%nat /\
  succeeded (result (run (validate network address value true false host_bit) st)).
Proof.
  destruct (Nat.eq_dec (count slash value) 1%nat) as [Hc|Hc].
  - destruct (run_validate_one_slash network address value host_bit st Hc)
      as [-> _].
    tauto.
  - split; [|tauto]. intros H. exfalso.
    apply (failed_not_succeeded _) in H; [exact H|].
    destruct (string_dec value "") as [->|Hne]; [reflexivity|].
    now rewrite run_validate_strict_violation.
Qed.

End Accepts.

(** X1.  With [cidr=True], [strict] only adds the test on the number of ['/']:
    a value is accepted with [strict=True] exactly when it has one ['/'] and
    is accepted with [strict=False]. *)
Theorem strict_accepts_iff (st : state) (value : string) (host_bit : bool) :
  (succeeded (result (run (ipv4 value true true host_bit) st)) <->
   count slash value = 1%nat /\
   succeeded (result (run (ipv4 value true false host_bit) st))) /\
  (succeeded (result (run (ipv6 value true true host_bit) st)) <->
   count slash value = 1%nat /\
   succeeded (result (run (ipv6 value true false host_bit) st))).
Proof.
  rewrite ipv4_validate, ipv6_validate. split; apply validate_strict_iff.
Qed.

(** X2.  A value with two or more ['/'] is never accepted, whatever the flags
    and the state of the library: the address constructor refuses any
    ['/'], and the network constructors refuse a second one. *)
Theorem two_slashes_rejected (st : state) (value : string)
    (cidr strict host_bit : bool) :
  (2 <= count slash value)%nat ->
  failed (result (run (ipv4 value cidr strict host_bit) st)) /\
  failed (result (run (ipv6 value cidr strict host_bit) st)).
Proof.
  intros H. rewrite ipv4_validate, ipv6_validate.
  assert (contains slash value = true) as Hs by (apply count_contains; lia).
  split.
  - eapply run_validate_raises with (e := AddressValueError) (st' := st);
      [|reflexivity].
    destruct cidr; cbn [the_call].
    + rewrite exec_network4, new_IPv4Network_unfold.
      now rewrite split_addr_prefix_slashes.
    + now apply exec_address4_slash.
  - eapply run_validate_raises with (e := AddressValueError) (st' := st);
      [|reflexivity].
    destruct cidr; cbn [the_call].
    + rewrite exec_network6, new_IPv6Network_unfold.
      now rewrite split_addr_prefix_slashes.
    + now apply exec_address6_slash.
Qed.

Lemma two_slashes_rejected_witness :
  failed (result (run (ipv4 "10.0.0.0/8/8" true false true) initial)) /\
  failed (result (run (ipv6 "10.0.0.0/8/8" true false true) initial)).
Proof.
  apply (two_slashes_rejected initial "10.0.0.0/8/8" true false true).
  vm_compute. lia.
Defined.

(* ===================================================================== *)
(** * The address part of an accepted value                               *)
(* ===================================================================== *)

Section AddressPart.

Lemma split_no_sep (sep : ascii) (s : string) :
  contains sep s = false -> split sep s = [s].
Proof.
  induction s as [|a s IH]; simpl; [reflexivity|].
  destruct (Ascii.eqb a sep); simpl; [discriminate|].
  intros H. now rewrite (IH H).
Qed.

Lemma address_part_no_slash (value : string) :
  contains slash value = false -> address_part value = value.
Proof. intros H. unfold address_part. now rewrite split_no_sep. Qed.

Lemma split_addr_prefix_address (c : cls) (value addr : string) (mask : pyarg) :
  _split_addr_prefix c value = Returns (addr, mask) ->
  addr = address_part value /\
  match mask with
  | inl n => n = _max_prefixlen c /\ split slash value = [addr]
  | inr m => split slash value = [addr; m]
  end.
Proof.
  unfold _split_addr_prefix, _split_optional_netmask, address_part.
  destruct (split slash value) as [|a [|m [|x l]]]; cbn; try discriminate.
  - intros [= <- <-]. auto.
  - intros [= <- <-]. auto.
Qed.

Lemma IPv4Address_no_slash (value : string) (a : IPv4Address) :
  new_IPv4Address (inr value) = Returns a -> contains slash value = false.
Proof. cbn. now destruct (contains slash value). Qed.

Lemma IPv6Address_no_slash (value : string) (a : IPv6Address) :
  new_IPv6Address (inr value) = Returns a -> contains slash value = false.
Proof. cbn. now destruct (contains slash value). Qed.

(** Whatever the flags, an accepted value has an address part that the
    address constructor of the family parses. *)
Lemma accepted4_address (st : state) (value : string) (cidr strict host_bit : bool) :
  succeeded (result (run (ipv4 value cidr strict host_bit) st)) ->
  exists a, new_IPv4Address (inr (address_part value)) = Returns a.
Proof.
  rewrite ipv4_validate. intros (v & Hr & Hv).
  destruct (run_validate_object _ _ _ _ _ _ _ _ Hr Hv) as (_ & _ & He).
  destruct cidr; cbn [the_call] in He.
  - rewrite exec_network4, new_IPv4Network_unfold in He.
    destruct (_split_addr_prefix _ _) as [[addr mask]|] eqn:Hs; [|discriminate He].
    apply split_addr_prefix_address in Hs as [-> _].
    destruct (new_IPv4Address (inr _)) as [a|]; [eauto | discriminate He].
  - rewrite exec_address4 in He.
    destruct (new_IPv4Address (inr value)) as [a|] eqn:Ha; [|discriminate He].
    rewrite (address_part_no_slash _ (IPv4Address_no_slash _ _ Ha)). eauto.
Qed.

Lemma accepted6_address (st : state) (value : string) (cidr strict host_bit : bool) :
  succeeded (result (run (ipv6 value cidr strict host_bit) st)) ->
  exists a, new_IPv6Address (inr (address_part value)) = Returns a.
Proof.
  rewrite ipv6_validate. intros (v & Hr & Hv).
  destruct (run_validate_object _ _ _ _ _ _ _ _ Hr Hv) as (_ & _ & He).
  destruct cidr; cbn [the_call] in He.
  - rewrite exec_network6, new_IPv6Network_unfold in He.
    destruct (_split_addr_prefix _ _) as [[addr mask]|] eqn:Hs; [|discriminate He].
    apply split_addr_prefix_address in Hs as [-> _].
    destruct (new_IPv6Address (inr _)) as [a|]; [eauto | discriminate He].
  - rewrite exec_address6 in He.
    destruct (new_IPv6Address (inr value)) as [a|] eqn:Ha; [|discriminate He].
    rewrite (address_part_no_slash _ (IPv6Address_no_slash _ _ Ha)). eauto.
Qed.

Lemma parse_octet_leading_zero (p : string) (z : Z) :
  leading_zero p = true -> BaseV4._parse_octet p <> Returns z.
Proof.
  destruct p as [|a [|b r]]; try discriminate. cbn [leading_zero].
  intros Ha H. unfold BaseV4._parse_octet in H. cbn [truthy_str negb] in H.
  destruct (isascii _ && isdigit _); [|discriminate H]. cbn [negb] in H.
  destruct (3 <? _)%nat; [discriminate H|].
  rewrite Ha in H.
  assert (String.eqb (String a (String b r)) "0" = false) as E.
  { cbn. destruct (Ascii.eqb a _); reflexivity. }
  rewrite E in H. discriminate H.
Qed.

Lemma IPv4Address_octets (value : string) (a : IPv4Address) :
  new_IPv4Address (inr value) = Returns a ->
  length (split dot value) = 4%nat /\
  Forall (fun p => exists z, BaseV4._parse_octet p = Returns z) (split dot value).
Proof.
  unfold new_IPv4Address, BaseV4._ip_int_from_string. intros H.
  destruct (contains slash value); [discriminate H|].
  destruct (truthy_str value); [|discriminate H]. cbn [negb] in H.
  destruct (Nat.eqb_spec (length (split dot value)) 4) as [Hl|]; [|discriminate H].
  cbn [negb] in H. split; [exact Hl|].
  destruct (mapM BaseV4._parse_octet (split dot value)) as [bs|e] eqn:E.
  - now apply mapM_returns in E.
  - destruct e; discriminate H.
Qed.

End AddressPart.

(** X3.  The two validators never accept the same value, whatever flags each is
    called with and whatever the state of the library: an accepted IPv4
    value has no [':'] before its first ['/'], and an accepted IPv6 value
    has one. *)
Theorem families_disjoint (st st' : state) (value : string)
    (cidr strict host_bit cidr' strict' host_bit' : bool) :
  (succeeded (result (run (ipv4 value cidr strict host_bit) st)) ->
   failed (result (run (ipv6 value cidr' strict' host_bit') st'))) /\
  (succeeded (result (run (ipv6 value cidr' strict' host_bit') st')) ->
   failed (result (run (ipv4 value cidr strict host_bit) st))).
Proof.
  split; intros H.
  - destruct (proj1 (no_escape_validate IPv6Network_ IPv6Address_ value
                       cidr' strict' host_bit' st')) as [Hf|Hs]; [exact Hf|].
    rewrite <- ipv6_validate in Hs.
    apply accepted4_address in H as [a Ha].
    apply accepted6_address in Hs as [a' Ha'].
    apply IPv4Address_no_colon in Ha. apply IPv6Address_colon in Ha'.
    congruence.
  - destruct (proj1 (no_escape_validate IPv4Network_ IPv4Address_ value
                       cidr strict host_bit st)) as [Hf|Hs]; [exact Hf|].
    rewrite <- ipv4_validate in Hs.
    apply accepted6_address in H as [a Ha].
    apply accepted4_address in Hs as [a' Ha'].
    apply IPv4Address_no_colon in Ha'. apply IPv6Address_colon in Ha.
    congruence.
Qed.

Lemma families_disjoint_witness :
  failed (result (run (ipv6 "10.0.0.0/8" false true false) initial)) /\
  failed (result (run (ipv4 "fe80::/64" false true false) initial)).
Proof.
  split.
  - apply (proj1 (families_disjoint initial initial "10.0.0.0/8"
                    true false true false true false)).
    eexists. split; [vm_compute; reflexivity | exact I].
  - apply (proj2 (families_disjoint initial initial "fe80::/64"
                    false true false true false true)).
    eexists. split; [vm_compute; reflexivity | exact I].
Defined.

(** X4.  [ipv4] tolerates no leading zero (the docstring's note on Python
    3.9.5): a value one of whose octets, in the part before the first ['/'],
    has two or more characters and starts with ['0'] is rejected, whatever
    the flags and the state of the library. *)
Theorem leading_zero_rejected (st : state) (value : string)
    (cidr strict host_bit : bool) (p : string) :
  In p (split dot (address_part value)) -> leading_zero p = true ->
  failed (result (run (ipv4 value cidr strict host_bit) st)).
Proof.
  intros Hin Hz.
  destruct (proj1 (no_escape_validate IPv4Network_ IPv4Address_ value
                     cidr strict host_bit st)) as [Hf|Hs]; [exact Hf|].
  rewrite <- ipv4_validate in Hs.
  apply accepted4_address in Hs as [a Ha].
  apply IPv4Address_octets in Ha as [_ Hall].
  destruct (proj1 (List.Forall_forall _ _) Hall p Hin) as [z Hp].
  now apply parse_octet_leading_zero in Hp.
Qed.

Lemma leading_zero_rejected_witness :
  failed (result (run (ipv4 "192.168.01.1/24" true false true) initial)).
Proof.
  apply (leading_zero_rejected initial "192.168.01.1/24" true false true "01").
  - vm_compute. tauto.
  - reflexivity.
Defined.

(* ===================================================================== *)
(** * The characters of an accepted IPv4 value                            *)
(* ===================================================================== *)

Section Alphabet.

Lemma forallb_str_weaken (p q : ascii -> bool) (s : string) :
  (forall c, p c = true -> q c = true) ->
  forallb_str p s = true -> forallb_str q s = true.
Proof.
  intros Hpq. induction s as [|a s IH]; simpl; [reflexivity|].
  intros H. apply andb_true_iff in H as [Ha Hs].
  now rewrite (Hpq a Ha), (IH Hs).
Qed.

Lemma forallb_str_both (p q : ascii -> bool) (s : string) :
  forallb_str p s = true -> forallb_str q s = true ->
  forallb_str (fun c => p c && q c) s = true.
Proof.
  induction s as [|a s IH]; simpl; [reflexivity|].
  intros Hp Hq. apply andb_true_iff in Hp as [-> Hp], Hq as [-> Hq].
  now rewrite IH.
Qed.

Lemma forallb_str_char (p : ascii -> bool) (c : ascii) (s : string) :
  forallb_str p s = true -> contains c s = true -> p c = true.
Proof.
  intros Hp Hc. destruct (p c) eqn:E; [reflexivity|].
  now rewrite (forallb_str_contains p c s Hp E) in Hc.
Qed.

(** The parts are made of [q]-characters: the string is made of
    [q]-characters and separators. *)
Lemma forallb_split (q : ascii -> bool) (sep : ascii) (s : string) :
  Forall (fun p => forallb_str q p = true) (split sep s) ->
  forallb_str (fun c => q c || Ascii.eqb c sep) s = true.
Proof.
  induction s as [|a s IH]; simpl; [reflexivity|].
  destruct (Ascii.eqb a sep) eqn:Ea.
  - intros H. inversion H; subst. rewrite orb_true_r. now apply IH.
  - destruct (split sep s) as [|p ps] eqn:E; [now apply split_not_nil in E|].
    intros H. inversion H as [|? ? Hp Hps]; subst. simpl in Hp.
    apply andb_true_iff in Hp as [-> Hp]. simpl. apply IH. now constructor.
Qed.

Lemma ascii_digits (s : string) :
  isascii s && isdigit s = true -> forallb_str ascii_digit s = true.
Proof.
  intros H. apply andb_true_iff in H as [Ha Hd].
  unfold isdigit in Hd. apply andb_true_iff in Hd as [_ Hd].
  now apply forallb_str_both.
Qed.

Lemma parse_octet_ascii_digits (p : string) (z : Z) :
  BaseV4._parse_octet p = Returns z -> forallb_str ascii_digit p = true.
Proof.
  unfold BaseV4._parse_octet. intros H.
  destruct (truthy_str p); [|discriminate H]. cbn [negb] in H.
  destruct (isascii p && isdigit p) eqn:E; [|discriminate H].
  now apply ascii_digits.
Qed.

Lemma ip_int_from_string4_chars (s : string) (n : Z) :
  BaseV4._ip_int_from_string s = Returns n -> forallb_str quad_char s = true.
Proof.
  unfold BaseV4._ip_int_from_string. intros H.
  destruct (truthy_str s); [|discriminate H]. cbn [negb] in H.
  destruct (length (split dot s) =? 4)%nat; [|discriminate H]. cbn [negb] in H.
  destruct (mapM BaseV4._parse_octet (split dot s)) as [bs|e] eqn:E;
    [|destruct e; discriminate H].
  apply mapM_returns in E. apply forallb_split.
  eapply List.Forall_impl; [|exact E].
  intros p [z Hz]. now apply parse_octet_ascii_digits in Hz.
Qed.

Lemma IPv4Address_chars (value : string) (a : IPv4Address) :
  new_IPv4Address (inr value) = Returns a -> forallb_str quad_char value = true.
Proof.
  unfold new_IPv4Address. destruct (contains slash value); [discriminate|].
  destruct (BaseV4._ip_int_from_string value) as [n|] eqn:E; [|discriminate].
  intros _. now apply ip_int_from_string4_chars in E.
Qed.

(** A mask that [_make_netmask] accepts is a prefix length or a dotted
    quad. *)
Lemma make_netmask4_chars (m : string) entry :
  make_netmask4 (inr m) = Returns entry -> forallb_str quad_char m = true.
Proof.
  unfold make_netmask4. intros H.
  destruct (_prefix_from_prefix_string BaseV4.class m) as [p|e] eqn:Ep.
  - clear H. unfold _prefix_from_prefix_string in Ep.
    destruct (isascii m && isdigit m) eqn:E; [|discriminate Ep].
    apply ascii_digits in E.
    eapply forallb_str_weaken; [|exact E].
    intros c Hc. unfold quad_char. now rewrite Hc.
  - cbn [try_except] in H.
    destruct (catches [NetmaskValueError] e); [|discriminate H].
    unfold _prefix_from_ip_string in H.
    change (_ip_int_from_string BaseV4.class) with BaseV4._ip_int_from_string in H.
    destruct (BaseV4._ip_int_from_string m) as [n|e'] eqn:En.
    + now apply ip_int_from_string4_chars in En.
    + destruct e'; discriminate H.
Qed.

End Alphabet.

(** X5.  In a process in which only the library wrote to its netmask caches, a
    value that [ipv4] accepts is made of ASCII digits, ['.'] and ['/']
    only: no blank, no sign, no digit outside ASCII, whatever the flags. *)
Theorem ipv4_accepts_only_digits_dots_slash (st : state) (value : string)
    (cidr strict host_bit : bool) (c : ascii) :
  caches_ok st ->
  succeeded (result (run (ipv4 value cidr strict host_bit) st)) ->
  contains c value = true ->
  ipv4_char c = true.
Proof.
  intros Hok (v & Hr & Hv) Hc.
  apply (forallb_str_char ipv4_char c value); [|exact Hc]. clear c Hc.
  rewrite ipv4_validate in Hr.
  destruct (run_validate_object _ _ _ _ _ _ _ _ Hr Hv) as (_ & _ & He).
  destruct cidr; cbn [the_call] in He.
  - rewrite exec_network4, new_IPv4Network_unfold in He.
    destruct (_split_addr_prefix _ _) as [[addr mask]|] eqn:Hs; [|discriminate He].
    apply split_addr_prefix_address in Hs as [_ Hs].
    destruct (new_IPv4Address (inr addr)) as [a|] eqn:Ha; [|discriminate He].
    apply IPv4Address_chars in Ha.
    destruct (make_netmask4_ok mask st Hok) as [Hm _].
    destruct (_make_netmask4 mask st) as [[entry|e] st1]; [|discriminate He].
    cbn [fst] in Hm. symmetry in Hm.
    apply (forallb_split quad_char slash).
    destruct mask as [n|m].
    + destruct Hs as [_ ->]. now repeat constructor.
    + rewrite Hs. apply make_netmask4_chars in Hm. now repeat constructor.
  - rewrite exec_address4 in He.
    destruct (new_IPv4Address (inr value)) as [a|] eqn:Ha; [|discriminate He].
    apply IPv4Address_chars in Ha.
    eapply forallb_str_weaken; [|exact Ha].
    intros ch Hch. unfold ipv4_char. now rewrite Hch.
Qed.

Lemma ipv4_accepts_only_digits_dots_slash_witness :
  ipv4_char "/"%char = true.
Proof.
  apply (ipv4_accepts_only_digits_dots_slash initial "10.0.0.0/8"
           true false true "/"%char caches_ok_initial).
  - eexists. split; [vm_compute; reflexivity | exact I].
  - reflexivity.
Defined.

(* ===================================================================== *)
(** * The range of a parsed address                                       *)
(* ===================================================================== *)

Section Ranges.

Lemma hex_value_range (a : ascii) (d : Z) :
  hex_value a = Some d -> 0 <= d < 16.
Proof.
  unfold hex_value. cbv zeta.
  destruct (N.leb_spec 48 (code a)), (N.leb_spec (code a) 57); cbn [andb];
    try (intros [= <-]; lia).
  all: destruct (N.leb_spec 97 (code a)), (N.leb_spec (code a) 102); cbn [andb];
    try (intros [= <-]; lia).
  all: destruct (N.leb_spec 65 (code a)), (N.leb_spec (code a) 70); cbn [andb];
    try (intros [= <-]; lia); discriminate.
Qed.

Lemma dec_value_range (a : ascii) (d : Z) :
  dec_value a = Some d -> 0 <= d < 10.
Proof.
  unfold dec_value. destruct (hex_value a) as [x|] eqn:E; [|discriminate].
  apply hex_value_range in E. destruct (Z.ltb_spec x 10); [|discriminate].
  intros [= <-]. lia.
Qed.

(** A literal of [len] digits that starts from [acc] lies in the block of
    [acc]. *)
Lemma digits_value_range (radix : Z) (value : ascii -> option Z) :
  0 < radix ->
  (forall a d, value a = Some d -> 0 <= d < radix) ->
  forall (s : string) (acc n : Z),
    0 <= acc ->
    digits_value radix value acc s = Some n ->
    radix ^ Z.of_nat (String.length s) * acc <= n
    < radix ^ Z.of_nat (String.length s) * (acc + 1).
Proof.
  intros Hr Hv. induction s as [|a s IH]; intros acc n Hacc H.
  - cbn in H. injection H as <-. cbn [String.length Z.of_nat]. lia.
  - cbn [digits_value] in H. destruct (value a) as [d|] eqn:Ea; [|discriminate H].
    apply Hv in Ea. apply IH in H; [|nia].
    cbn [String.length]. rewrite Nat2Z.inj_succ, Z.pow_succ_r by lia.
    assert (0 < radix ^ Z.of_nat (String.length s)) by (apply Z.pow_pos_nonneg; lia).
    nia.
Qed.

Lemma int10_nonneg (s : string) (n : Z) : int10 s = Returns n -> 0 <= n.
Proof.
  unfold int10. destruct (negb _); [discriminate|]. destruct (_ <? _)%nat; [discriminate|].
  destruct (digits_value 10 dec_value 0 s) as [x|] eqn:E; [|discriminate].
  intros [= <-].
  apply (digits_value_range 10 dec_value ltac:(lia) dec_value_range) in E; lia.
Qed.

Lemma parse_octet_range (p : string) (z : Z) :
  BaseV4._parse_octet p = Returns z -> 0 <= z <= 255.
Proof.
  unfold BaseV4._parse_octet. intros H.
  repeat match type of H with
         | (if ?c then Raises _ else _) = _ => destruct c; [discriminate H|]
         end.
  destruct (int10 p) as [n|] eqn:E; [|discriminate H]. cbn [Py.bind] in H.
  apply int10_nonneg in E.
  destruct (Z.ltb_spec 255 n); [discriminate H|]. injection H as <-. lia.
Qed.

Lemma parse_hextet_range (p : string) (h : Z) :
  BaseV6._parse_hextet p = Returns h -> 0 <= h < 2 ^ 16.
Proof.
  unfold BaseV6._parse_hextet, int16. intros H.
  destruct (negb (forallb_str _ p)); [discriminate H|].
  destruct (Nat.ltb_spec 4 (String.length p)) as [|Hl]; [discriminate H|].
  destruct (negb (truthy_str p)); [discriminate H|].
  destruct (digits_value 16 hex_value 0 p) as [n|] eqn:E; [|discriminate H].
  injection H as <-.
  apply (digits_value_range 16 hex_value ltac:(lia) hex_value_range) in E; [|lia].
  assert (16 ^ Z.of_nat (String.length p) <= 16 ^ 4) as Hp
    by (apply Z.pow_le_mono_r; lia).
  change (16 ^ 4) with (2 ^ 16) in Hp. lia.
Qed.

Lemma mapM_all {A B} (f : A -> outcome B) (Q : B -> Prop) (xs : list A)
    (ys : list B) :
  (forall x y, f x = Returns y -> Q y) ->
  mapM f xs = Returns ys -> Forall Q ys /\ length ys = length xs.
Proof.
  intros Hf. revert ys. induction xs as [|x xs IH]; intros ys H.
  - injection H as <-. now split.
  - cbn in H. destruct (f x) as [y|] eqn:E; [|discriminate H].
    destruct (mapM f xs) as [ys'|]; [|discriminate H].
    injection H as <-. destruct (IH ys' eq_refl) as [H1 H2].
    split; [constructor; eauto | cbn; now rewrite H2].
Qed.

(** A dotted quad is a 32-bit number. *)
Lemma ip_int_from_string4_range (s : string) (n : Z) :
  BaseV4._ip_int_from_string s = Returns n -> 0 <= n < 2 ^ 32.
Proof.
  unfold BaseV4._ip_int_from_string. intros H.
  destruct (negb (truthy_str s)); [discriminate H|].
  destruct (Nat.eqb_spec (length (split dot s)) 4) as [Hl|]; [|discriminate H].
  cbn [negb] in H.
  destruct (mapM BaseV4._parse_octet (split dot s)) as [bs|e] eqn:E;
    [|destruct e; discriminate H].
  injection H as <-.
  destruct (mapM_all _ (fun z => 0 <= z <= 255) _ _ parse_octet_range E)
    as [Hall Hlen].
  rewrite Hl in Hlen.
  destruct bs as [|a [|b [|c [|d [|]]]]]; try discriminate Hlen.
  repeat match goal with H : Forall _ (_ :: _) |- _ => inversion H; clear H; subst end.
  unfold BaseV4.from_bytes_big. cbn [fold_left].
  change (2 ^ 32) with 4294967296. lia.
Qed.

Lemma IPv4Address_range (value : string) (a : IPv4Address) :
  new_IPv4Address (inr value) = Returns a -> 0 <= _ip4 a < 2 ^ 32.
Proof.
  unfold new_IPv4Address. destruct (contains slash value); [discriminate|].
  destruct (BaseV4._ip_int_from_string value) as [n|] eqn:E; [|discriminate].
  intros [= <-]. now apply ip_int_from_string4_range in E.
Qed.

Lemma lor_bound (n a b : Z) :
  0 <= n -> 0 <= a < 2 ^ n -> 0 <= b < 2 ^ n -> 0 <= Z.lor a b < 2 ^ n.
Proof.
  intros Hn Ha Hb.
  assert (Z.lor a b = Z.lor a b mod 2 ^ n) as ->.
  { rewrite <- (Z.land_ones _ _ Hn), Z.land_lor_distr_l, !(Z.land_ones _ _ Hn).
    now rewrite (Z.mod_small a), (Z.mod_small b). }
  apply Z.mod_pos_bound. lia.
Qed.

Lemma shiftl_bound (k m a : Z) :
  0 <= k -> 0 <= m -> 0 <= a < 2 ^ k -> 0 <= Z.shiftl a m < 2 ^ (k + m).
Proof.
  intros Hk Hm Ha. rewrite Z.shiftl_mul_pow2, Z.pow_add_r by lia.
  assert (0 < 2 ^ m) by (apply Z.pow_pos_nonneg; lia). nia.
Qed.

Lemma add_hextet_range (parts : list string) (k acc i x : Z) :
  0 <= k -> 0 <= acc < 2 ^ k ->
  BaseV6.add_hextet parts acc i = Returns x -> 0 <= x < 2 ^ (k + 16).
Proof.
  intros Hk Hacc. unfold BaseV6.add_hextet.
  destruct (getitem parts i) as [p|]; [|discriminate]. cbn [Py.bind].
  destruct (BaseV6._parse_hextet p) as [h|] eqn:E; [|discriminate].
  intros [= <-]. apply parse_hextet_range in E.
  apply lor_bound; [lia | now apply shiftl_bound|].
  assert (2 ^ 16 <= 2 ^ (k + 16)) by (apply Z.pow_le_mono_r; lia). lia.
Qed.

Lemma foldM_add_hextet_range (parts : list string) (xs : list Z) :
  forall (k acc x : Z),
    0 <= k -> 0 <= acc < 2 ^ k ->
    foldM (BaseV6.add_hextet parts) xs acc = Returns x ->
    0 <= x < 2 ^ (k + 16 * Z.of_nat (length xs)).
Proof.
  induction xs as [|i xs IH]; intros k acc x Hk Hacc H.
  - injection H as <-. cbn [length Z.of_nat]. now rewrite Z.mul_0_r, Z.add_0_r.
  - cbn [foldM] in H.
    destruct (BaseV6.add_hextet parts acc i) as [y|] eqn:E; [|discriminate H].
    cbn [Py.bind] in H.
    apply (add_hextet_range parts k) in E; [|lia|exact Hacc].
    apply (IH (k + 16)) in H; [|lia|exact E].
    cbn [length]. rewrite Nat2Z.inj_succ.
    now replace (k + 16 * Z.succ (Z.of_nat (length xs)))
      with (k + 16 + 16 * Z.of_nat (length xs)) by lia.
Qed.

Lemma range_length (a b : Z) : length (range a b) = Z.to_nat (b - a).
Proof. unfold range. now rewrite length_map, length_seq. Qed.

(** The three counts of the layout cover the eight hextets. *)
Lemma layout_sum (parts : list string) (skip_index : option Z) hi lo sk :
  3 <= Z.of_nat (length parts) ->
  (forall k, skip_index = Some k -> 1 <= k < Z.of_nat (length parts) - 1) ->
  BaseV6.layout parts skip_index = Returns (hi, lo, sk) ->
  0 <= hi /\ 0 <= lo /\ 0 <= sk /\ hi + lo + sk = 8.
Proof.
  intros Hlen Hk. unfold BaseV6.layout, BaseV6._HEXTET_COUNT.
  destruct (getitem_in_range parts 0) as [first ->]; [lia|].
  destruct (getitem_in_range parts (-1)) as [last ->]; [lia|]. cbn [Py.bind].
  destruct skip_index as [k|].
  - specialize (Hk k eq_refl).
    destruct (truthy_str first), (truthy_str last); cbn [negb Py.bind];
      repeat match goal with
             | |- context [if negb (?a =? ?b) then _ else _] =>
                 destruct (Z.eqb_spec a b); cbn [negb Py.bind]
             | |- context [if ?a <? ?b then _ else _] =>
                 destruct (Z.ltb_spec a b)
             end; try discriminate; intros [= <- <- <-]; lia.
  - destruct (Z.eqb_spec (Z.of_nat (length parts)) 8); cbn [negb];
      [|discriminate].
    destruct (truthy_str first), (truthy_str last); cbn [negb];
      try discriminate; intros [= <- <- <-]; lia.
Qed.

(** The part of [_ip_int_from_string] that follows the IPv4 suffix. *)
Lemma hextets_range (parts : list string) (n : Z) :
  3 <= Z.of_nat (length parts) ->
  (skip_index <- BaseV6.find_skip_index parts ;;
   l <- BaseV6.layout parts skip_index ;;
   let '(parts_hi, parts_lo, parts_skipped) := l in
   try_except
     (ip_int <- foldM (BaseV6.add_hextet parts) (range 0 parts_hi) 0 ;;
      let ip_int := Z.shiftl ip_int (16 * parts_skipped) in
      foldM (BaseV6.add_hextet parts) (range (- parts_lo) 0) ip_int)
     [ValueError]
     (Raises AddressValueError))%exc = Returns n ->
  0 <= n < 2 ^ 128.
Proof.
  intros Hlen H.
  pose proof (post_find_skip_index parts) as Hskip.
  destruct (BaseV6.find_skip_index parts) as [skip|]; [|discriminate H].
  cbn [Py.bind post] in H, Hskip.
  destruct (BaseV6.layout parts skip) as [[[hi lo] sk]|] eqn:El; [|discriminate H].
  cbn [Py.bind] in H.
  apply (layout_sum parts skip hi lo sk Hlen Hskip) in El as (Hhi & Hlo & Hsk & Hsum).
  destruct (foldM (BaseV6.add_hextet parts) (range 0 hi) 0) as [x|e] eqn:E1;
    [|destruct e; discriminate H].
  cbn [Py.bind] in H.
  apply (foldM_add_hextet_range parts _ 0) in E1; [|lia|cbn; lia].
  rewrite range_length in E1.
  destruct (foldM (BaseV6.add_hextet parts) (range (- lo) 0) _) as [y|e] eqn:E2;
    [|destruct e; discriminate H].
  injection H as <-.
  apply (foldM_add_hextet_range parts _ (0 + 16 * Z.of_nat (Z.to_nat (hi - 0))
                                           + 16 * sk)) in E2;
    [|lia|apply shiftl_bound; [lia | lia | exact E1]].
  rewrite range_length in E2.
  replace (0 + 16 * Z.of_nat (Z.to_nat (hi - 0)) + 16 * sk
           + 16 * Z.of_nat (Z.to_nat (0 - - lo))) with 128 in E2 by lia.
  exact E2.
Qed.

(** An IPv6 literal is a 128-bit number. *)
Lemma ip_int_from_string6_range (s : string) (n : Z) :
  BaseV6._ip_int_from_string s = Returns n -> 0 <= n < 2 ^ 128.
Proof.
  unfold BaseV6._ip_int_from_string. intros H.
  destruct (negb (truthy_str s)); [discriminate H|].
  destruct (Nat.ltb_spec (length (split colon s)) 3) as [|Hlen]; [discriminate H|].
  destruct (getitem (split colon s) (-1)) as [last|]; [|discriminate H].
  cbn [Py.bind] in H.
  destruct (contains dot last).
  - destruct (try_except (new_IPv4Address (inr last)) _ _) as [a|];
      [|discriminate H].
    cbn [Py.bind] in H.
    destruct (_ <? _); [discriminate H|].
    apply hextets_range in H; [exact H|].
    rewrite length_app, removelast_firstn_len, length_firstn. cbn [length]. lia.
  - cbn [Py.bind] in H.
    destruct (_ <? _); [discriminate H|].
    apply hextets_range in H; [exact H | lia].
Qed.

Lemma IPv6Address_range (value : string) (a : IPv6Address) :
  new_IPv6Address (inr value) = Returns a -> 0 <= _ip6 a < 2 ^ 128.
Proof.
  unfold new_IPv6Address. destruct (contains slash value); [discriminate|].
  destruct (BaseV6._split_scope_id value) as [p|]; [|discriminate]. cbn [Py.bind].
  destruct (BaseV6._ip_int_from_string p.1) as [n|] eqn:E; [|discriminate].
  intros [= <-]. now apply ip_int_from_string6_range in E.
Qed.

End Ranges.

(* ===================================================================== *)
(** * The objects a validator returns                                     *)
(* ===================================================================== *)

Section Objects.

Lemma ip_int_from_prefix_mask (c : cls) (n p : Z) :
  _ALL_ONES c = 2 ^ n - 1 -> 0 <= p <= n ->
  prefix_mask n p (_ip_int_from_prefix c p).
Proof.
  intros Hc Hp i Hi. unfold _ip_int_from_prefix. rewrite Hc.
  replace (2 ^ n - 1) with (Z.ones n) by (rewrite Z.ones_equiv; lia).
  rewrite Z.lxor_spec, Z.shiftr_spec, !Z.testbit_ones_nonneg by lia.
  destruct (Z.ltb_spec i n), (Z.ltb_spec (i + p) n), (Z.leb_spec (n - p) i);
    cbn; try reflexivity; lia.
Qed.

Lemma bit_length_nonneg (n : Z) : 0 <= bit_length n.
Proof.
  unfold bit_length. destruct (n =? 0); [lia|].
  pose proof (Z.log2_nonneg (Z.abs n)). lia.
Qed.

Lemma prefix_from_ip_int_range (c : cls) (x p : Z) :
  0 <= _max_prefixlen c ->
  _prefix_from_ip_int c x = Returns p -> 0 <= p <= _max_prefixlen c.
Proof.
  intros Hm. unfold _prefix_from_ip_int, _count_righthand_zero_bits.
  destruct (negb _); [discriminate|]. intros [= <-].
  destruct (x =? 0); [lia|].
  pose proof (bit_length_nonneg (Z.land (Z.lnot x) (x - 1))). lia.
Qed.

Lemma prefix_from_prefix_string_range (c : cls) (s : string) (p : Z) :
  _prefix_from_prefix_string c s = Returns p -> 0 <= p <= _max_prefixlen c.
Proof.
  unfold _prefix_from_prefix_string. intros H.
  destruct (negb (isascii s && isdigit s)); [discriminate H|]. cbn [Py.bind] in H.
  destruct (try_except (int10 s) _ _) as [n|]; [|discriminate H].
  cbn [Py.bind] in H.
  destruct ((0 <=? n) && (n <=? _max_prefixlen c)) eqn:E; [|discriminate H].
  injection H as <-. apply andb_true_iff in E as [E1 E2].
  apply Z.leb_le in E1, E2. lia.
Qed.

Lemma prefix_from_ip_string_range (c : cls) (s : string) (p : Z) :
  0 <= _max_prefixlen c ->
  _prefix_from_ip_string c s = Returns p -> 0 <= p <= _max_prefixlen c.
Proof.
  intros Hm. unfold _prefix_from_ip_string. intros H.
  destruct (try_except (_ip_int_from_string c s) _ _) as [x|]; [|discriminate H].
  cbn [Py.bind] in H.
  destruct (_prefix_from_ip_int c x) as [q|e] eqn:E1.
  - injection H as <-. now apply prefix_from_ip_int_range in E1.
  - cbn [try_except] in H. destruct (catches [ValueError] e); [|discriminate H].
    destruct (_prefix_from_ip_int c (Z.lxor x (_ALL_ONES c))) as [q|e'] eqn:E2.
    + injection H as <-. now apply prefix_from_ip_int_range in E2.
    + cbn [try_except] in H. destruct (catches [ValueError] e'); discriminate H.
Qed.

(** What [_make_netmask] computes: a prefix length of the family and the
    mask of that prefix. *)
Lemma make_netmask4_prefix (arg : pyarg) (nm : IPv4Address) (plen : Z) :
  make_netmask4 arg = Returns (nm, plen) ->
  0 <= plen <= 32 /\ prefix_mask 32 plen (_ip4 nm).
Proof.
  unfold make_netmask4. intros H.
  destruct (match arg with inl _ => _ | inr _ => _ end) as [p|] eqn:Ep;
    [|discriminate H].
  cbn [Py.bind] in H. rewrite new_IPv4Address_int in H.
  destruct (_ || _); [discriminate H|]. injection H as <- <-.
  assert (0 <= p <= _max_prefixlen BaseV4.class) as Hp.
  { destruct arg as [n|s].
    - destruct ((0 <=? n) && (n <=? _max_prefixlen BaseV4.class)) eqn:E;
        [|discriminate Ep].
      injection Ep as <-. apply andb_true_iff in E as [E1 E2].
      apply Z.leb_le in E1, E2. lia.
    - destruct (_prefix_from_prefix_string BaseV4.class s) as [q|e] eqn:E1.
      + injection Ep as <-. now apply prefix_from_prefix_string_range in E1.
      + cbn [try_except] in Ep.
        destruct (catches [NetmaskValueError] e); [|discriminate Ep].
        apply prefix_from_ip_string_range in Ep; [exact Ep | discriminate]. }
  change (_max_prefixlen BaseV4.class) with 32 in Hp.
  split; [exact Hp|]. now apply ip_int_from_prefix_mask.
Qed.

Lemma make_netmask6_prefix (arg : pyarg) (nm : IPv6Address) (plen : Z) :
  make_netmask6 arg = Returns (nm, plen) ->
  0 <= plen <= 128 /\ prefix_mask 128 plen (_ip6 nm).
Proof.
  unfold make_netmask6. intros H.
  destruct (match arg with inl _ => _ | inr _ => _ end) as [p|] eqn:Ep;
    [|discriminate H].
  cbn [Py.bind] in H. rewrite new_IPv6Address_int in H.
  destruct (_ || _); [discriminate H|]. injection H as <- <-.
  assert (0 <= p <= _max_prefixlen BaseV6.class) as Hp.
  { destruct arg as [n|s].
    - destruct ((0 <=? n) && (n <=? _max_prefixlen BaseV6.class)) eqn:E;
        [|discriminate Ep].
      injection Ep as <-. apply andb_true_iff in E as [E1 E2].
      apply Z.leb_le in E1, E2. lia.
    - now apply prefix_from_prefix_string_range in Ep. }
  change (_max_prefixlen BaseV6.class) with 128 in Hp.
  split; [exact Hp|]. now apply ip_int_from_prefix_mask.
Qed.

Lemma land_idem (a m : Z) : Z.land (Z.land a m) m = Z.land a m.
Proof. now rewrite <- Z.land_assoc, Z.land_diag. Qed.

Lemma new_IPv4Network_ok_object (st st' : state) (value : string)
    (strict : bool) (n : IPv4Network) :
  caches_ok st ->
  new_IPv4Network value strict st = (Returns n, st') ->
  network_ok 32 (_ip4 (network_address4 n)) (_ip4 (netmask4 n)) (_prefixlen4 n).
Proof.
  intros Hok. rewrite new_IPv4Network_unfold.
  destruct (_split_addr_prefix _ _) as [[addr mask]|]; [|discriminate].
  destruct (new_IPv4Address (inr addr)) as [a|] eqn:Ha; [|discriminate].
  apply IPv4Address_range in Ha.
  destruct (make_netmask4_ok mask st Hok) as [Hm _].
  destruct (_make_netmask4 mask st) as [[[nm plen]|e] st1]; [|discriminate].
  cbn [fst] in Hm. symmetry in Hm.
  destruct (make_netmask4_prefix _ _ _ Hm) as [Hp Hmask].
  pose proof (make_netmask4_range _ _ _ Hm) as Hnm.
  destruct (Z.eqb_spec (Z.land (_ip4 a) (_ip4 nm)) (_ip4 a)) as [E|E].
  - intros [= <- _]. cbn. unfold network_ok. auto.
  - destruct strict; [discriminate|]. rewrite new_IPv4Address_int.
    destruct (_ || _); [discriminate|]. intros [= <- _]. cbn.
    split; [exact Hp | split; [exact Hmask | split]].
    + apply (land_bound 32); lia.
    + apply land_idem.
Qed.

Lemma new_IPv6Network_ok_object (st st' : state) (value : string)
    (strict : bool) (n : IPv6Network) :
  caches_ok st ->
  new_IPv6Network value strict st = (Returns n, st') ->
  network_ok 128 (_ip6 (network_address6 n)) (_ip6 (netmask6 n)) (_prefixlen6 n).
Proof.
  intros Hok. rewrite new_IPv6Network_unfold.
  destruct (_split_addr_prefix _ _) as [[addr mask]|]; [|discriminate].
  destruct (new_IPv6Address (inr addr)) as [a|] eqn:Ha; [|discriminate].
  apply IPv6Address_range in Ha.
  destruct (make_netmask6_ok mask st Hok) as [Hm _].
  destruct (_make_netmask6 mask st) as [[[nm plen]|e] st1]; [|discriminate].
  cbn [fst] in Hm. symmetry in Hm.
  destruct (make_netmask6_prefix _ _ _ Hm) as [Hp Hmask].
  pose proof (make_netmask6_range _ _ _ Hm) as Hnm.
  destruct (Z.eqb_spec (Z.land (_ip6 a) (_ip6 nm)) (_ip6 a)) as [E|E].
  - intros [= <- _]. cbn. unfold network_ok. auto.
  - destruct strict; [discriminate|]. rewrite new_IPv6Address_int.
    destruct (_ || _); [discriminate|]. intros [= <- _]. cbn.
    split; [exact Hp | split; [exact Hmask | split]].
    + apply (land_bound 128); lia.
    + apply land_idem.
Qed.

End Objects.

(** X6.  In a process in which only the library wrote to its netmask caches,
    what a validator returns is [False] or a well-formed object of its own
    family: an address within the family's 32 or 128 bits, or a network
    whose prefix length is within the width, whose netmask is exactly the
    top [prefixlen] bits, and whose network address has no bit outside the
    netmask (also when host bits were tolerated in the value). *)
Theorem returned_object_well_formed (st : state) (value : string)
    (cidr strict host_bit : bool) :
  caches_ok st ->
  (forall v, result (run (ipv4 value cidr strict host_bit) st) = Returns v ->
             returns4 v) /\
  (forall v, result (run (ipv6 value cidr strict host_bit) st) = Returns v ->
             returns6 v).
Proof.
  intros Hok. split; intros v Hr.
  - assert (failed (Returns v) \/ succeeded (Returns v)) as [[= ->]|(v' & [= <-] & Hv)].
    { rewrite <- Hr, ipv4_validate. apply no_escape_validate. }
    { reflexivity. }
    rewrite ipv4_validate in Hr.
    destruct (run_validate_object _ _ _ _ _ _ _ _ Hr Hv) as (_ & _ & He).
    destruct cidr; cbn [the_call] in He.
    + rewrite exec_network4 in He.
      destruct (new_IPv4Network _ _ st) as [[n|e] st1] eqn:En; [|discriminate He].
      injection He as <- _. cbn. eapply new_IPv4Network_ok_object; eassumption.
    + rewrite exec_address4 in He.
      destruct (new_IPv4Address (inr value)) as [a|] eqn:Ha; [|discriminate He].
      injection He as <-. cbn. now apply IPv4Address_range in Ha.
  - assert (failed (Returns v) \/ succeeded (Returns v)) as [[= ->]|(v' & [= <-] & Hv)].
    { rewrite <- Hr, ipv6_validate. apply no_escape_validate. }
    { reflexivity. }
    rewrite ipv6_validate in Hr.
    destruct (run_validate_object _ _ _ _ _ _ _ _ Hr Hv) as (_ & _ & He).
    destruct cidr; cbn [the_call] in He.
    + rewrite exec_network6 in He.
      destruct (new_IPv6Network _ _ st) as [[n|e] st1] eqn:En; [|discriminate He].
      injection He as <- _. cbn. eapply new_IPv6Network_ok_object; eassumption.
    + rewrite exec_address6 in He.
      destruct (new_IPv6Address (inr value)) as [a|] eqn:Ha; [|discriminate He].
      injection He as <-. cbn. now apply IPv6Address_range in Ha.
Qed.

Lemma returned_object_well_formed_witness :
  returns4 (VIPv4Network {| network_address4 := {| _ip4 := 3232235776 |};
                            netmask4 := {| _ip4 := 4294967040 |};
                            _prefixlen4 := 24 |}).
Proof.
  apply (proj1 (returned_object_well_formed initial "192.168.1.77/24"
                  true false true caches_ok_initial)).
  vm_compute. reflexivity.
Defined.

Section BareValues.

Lemma land_all_ones (n a : Z) : 0 <= n -> 0 <= a < 2 ^ n -> Z.land a (2 ^ n - 1) = a.
Proof.
  intros Hn Ha.
  replace (2 ^ n - 1) with (Z.ones n) by (rewrite Z.ones_equiv; lia).
  rewrite Z.land_ones by lia. now apply Z.mod_small.
Qed.

Lemma split_addr_prefix_bare (c : cls) (value : string) :
  contains slash value = false ->
  _split_addr_prefix c value = Returns (value, inl (_max_prefixlen c)).
Proof.
  intros H. unfold _split_addr_prefix, _split_optional_netmask.
  now rewrite (split_no_sep _ _ H).
Qed.

Lemma new_IPv4Network_bare (st : state) (value : string) (strict : bool) :
  caches_ok st -> contains slash value = false ->
  (new_IPv4Network value strict st).1 =
  match new_IPv4Address (inr value) with
  | Returns a =>
      Returns {| network_address4 := a; netmask4 := {| _ip4 := 2 ^ 32 - 1 |};
                 _prefixlen4 := 32 |}
  | Raises e => Raises e
  end.
Proof.
  intros Hok Hs.
  destruct (new_IPv4Address (inr value)) as [a|e] eqn:Ha.
  - destruct (new_IPv4Network_parsed st value value (inl 32) strict a
                {| _ip4 := 2 ^ 32 - 1 |} 32 Hok) as [st' ->];
      [now apply split_addr_prefix_bare | exact Ha | reflexivity|].
    cbn [fst _ip4].
    rewrite (land_all_ones 32) by (lia || now apply IPv4Address_range in Ha).
    now rewrite Z.eqb_refl.
  - rewrite new_IPv4Network_unfold, split_addr_prefix_bare, Ha by exact Hs.
    reflexivity.
Qed.

Lemma new_IPv6Network_bare (st : state) (value : string) (strict : bool) :
  caches_ok st -> contains slash value = false ->
  (new_IPv6Network value strict st).1 =
  match new_IPv6Address (inr value) with
  | Returns a =>
      Returns {| network_address6 := a;
                 netmask6 := {| _ip6 := 2 ^ 128 - 1; _scope_id := None |};
                 _prefixlen6 := 128 |}
  | Raises e => Raises e
  end.
Proof.
  intros Hok Hs.
  destruct (new_IPv6Address (inr value)) as [a|e] eqn:Ha.
  - destruct (new_IPv6Network_parsed st value value (inl 128) strict a
                {| _ip6 := 2 ^ 128 - 1; _scope_id := None |} 128 Hok)
      as [st' ->];
      [now apply split_addr_prefix_bare | exact Ha | reflexivity|].
    cbn [fst _ip6].
    rewrite (land_all_ones 128) by (lia || now apply IPv6Address_range in Ha).
    now rewrite Z.eqb_refl.
  - rewrite new_IPv6Network_unfold, split_addr_prefix_bare, Ha by exact Hs.
    reflexivity.
Qed.

Variables (network : string -> bool -> call) (address : string -> call).

(** The result of a run, from what the library answers. *)
Lemma result_validate (value : string) (cidr strict host_bit : bool) (st : state) :
  value <> "" -> strict_violation value cidr strict = false ->
  result (run (validate network address value cidr strict host_bit) st) =
  match (exec (the_call network address value cidr host_bit) st).1 with
  | Returns v => Returns v
  | Raises e => Returns (VBool false)
  end.
Proof.
  intros Hne Hs. rewrite (run_validate _ _ _ _ _ _ _ Hne), Hs. cbv zeta.
  pose proof (post_exec (the_call network address value cidr host_bit) st) as Hp.
  destruct (exec _ st) as [[v|e] st']; cbn [fst post] in *; [reflexivity|].
  now rewrite (value_error_handled e Hp).
Qed.

End BareValues.

(** X7.  In a process in which only the library wrote to its netmask caches, a
    value without ['/'] is treated by [cidr=True] (with [strict] off) as
    the one-address network: if the address constructor parses it, the
    validator returns the network of that address with the full prefix
    length (/32 or /128) and the all-ones netmask, whatever [host_bit] is;
    if not, it returns [False].  So for such a value [cidr] does not change
    the verdict. *)
Theorem bare_value_is_full_prefix_network (st : state) (value : string)
    (host_bit : bool) :
  caches_ok st -> contains slash value = false ->
  result (run (ipv4 value true false host_bit) st) =
    match new_IPv4Address (inr value) with
    | Returns a =>
        Returns (VIPv4Network {| network_address4 := a;
                                 netmask4 := {| _ip4 := 2 ^ 32 - 1 |};
                                 _prefixlen4 := 32 |})
    | Raises _ => Returns (VBool false)
    end /\
  result (run (ipv6 value true false host_bit) st) =
    match new_IPv6Address (inr value) with
    | Returns a =>
        Returns (VIPv6Network
                   {| network_address6 := a;
                      netmask6 := {| _ip6 := 2 ^ 128 - 1; _scope_id := None |};
                      _prefixlen6 := 128 |})
    | Raises _ => Returns (VBool false)
    end.
Proof.
  intros Hok Hs.
  destruct (string_dec value "") as [->|Hne]; [split; reflexivity|].
  rewrite ipv4_validate, ipv6_validate.
  rewrite !result_validate by (exact Hne || reflexivity).
  cbn [the_call]. rewrite exec_network4, exec_network6.
  pose proof (new_IPv4Network_bare st value (negb host_bit) Hok Hs) as H4.
  pose proof (new_IPv6Network_bare st value (negb host_bit) Hok Hs) as H6.
  destruct (new_IPv4Network _ _ st) as [r4 s4], (new_IPv6Network _ _ st) as [r6 s6].
  cbn [fst] in H4, H6. subst r4 r6.
  split.
  - now destruct (new_IPv4Address (inr value)).
  - now destruct (new_IPv6Address (inr value)).
Qed.

Lemma bare_value_is_full_prefix_network_witness :
  result (run (ipv6 "fe80::1%eth0" true false false) initial) =
  Returns (VIPv6Network
             {| network_address6 :=
                  {| _ip6 := 338288524927261089654018896841347694593;
                     _scope_id := Some "eth0" |};
                netmask6 := {| _ip6 := 2 ^ 128 - 1; _scope_id := None |};
                _prefixlen6 := 128 |}).
Proof.
  exact (proj2 (bare_value_is_full_prefix_network initial "fe80::1%eth0" false
                  caches_ok_initial eq_refl)).
Defined.

(* ===================================================================== *)
(** * IPv4-mapped IPv6 literals                                           *)
(* ===================================================================== *)

Section Mapped.

Lemma hex_digit_value (d : Z) : 0 <= d < 16 -> hex_value (hex_digit d) = Some d.
Proof.
  intros H. destruct d as [|p|p]; [reflexivity | | lia].
  do 4 (destruct p as [p|p|]; try lia; try reflexivity).
Qed.

Lemma digits_value_hex (ds : list Z) :
  Forall (fun d => 0 <= d < 16) ds ->
  forall acc,
    digits_value 16 hex_value acc
      (fold_right (fun d s => String (hex_digit d) s) EmptyString ds)
    = Some (fold_left (fun a d => 16 * a + d) ds acc).
Proof.
  induction 1 as [|d ds Hd _ IH]; intros acc; [reflexivity|].
  cbn [fold_right digits_value fold_left]. now rewrite (hex_digit_value d Hd), IH.
Qed.

Lemma forallb_hex (ds : list Z) :
  Forall (fun d => 0 <= d < 16) ds ->
  forallb_str BaseV6.is_hex_digit
    (fold_right (fun d s => String (hex_digit d) s) EmptyString ds) = true.
Proof.
  induction 1 as [|d ds Hd _ IH]; [reflexivity|].
  cbn [fold_right forallb_str]. fold (forallb_str BaseV6.is_hex_digit).
  unfold BaseV6.is_hex_digit at 1. now rewrite (hex_digit_value d Hd), IH.
Qed.

(** ['%x'] and [_parse_hextet] are inverse on 16-bit numbers. *)
Lemma parse_hextet_format_x (n : Z) :
  0 <= n < 65536 -> BaseV6._parse_hextet (format_x n) = Returns n.
Proof.
  intros Hn. unfold format_x. cbv zeta.
  rewrite !Z.shiftr_div_pow2 by lia.
  change (2 ^ 12) with 4096. change (2 ^ 8) with 256. change (2 ^ 4) with 16.
  set (d3 := n / 4096 mod 16). set (d2 := n / 256 mod 16).
  set (d1 := n / 16 mod 16). set (d0 := n mod 16).
  assert (0 <= d3 < 16 /\ 0 <= d2 < 16 /\ 0 <= d1 < 16 /\ 0 <= d0 < 16)
    as (H3 & H2 & H1 & H0)
    by (unfold d3, d2, d1, d0; repeat split; apply Z.mod_pos_bound; lia).
  assert (n = 4096 * d3 + 256 * d2 + 16 * d1 + d0) as Hsum
    by (unfold d3, d2, d1, d0; Z.div_mod_to_equations; lia).
  clearbody d3 d2 d1 d0.
  assert (forall ds, (length ds <= 4)%nat -> ds <> [] ->
            Forall (fun d => 0 <= d < 16) ds ->
            fold_left (fun a d => 16 * a + d) ds 0 = n ->
            BaseV6._parse_hextet
              (fold_right (fun d s => String (hex_digit d) s) EmptyString ds)
            = Returns n) as Hgen.
  { intros ds Hlen Hne Hall Hval. unfold BaseV6._parse_hextet, int16.
    rewrite (forallb_hex ds Hall). cbn [negb].
    assert (String.length
              (fold_right (fun d s => String (hex_digit d) s) EmptyString ds)
            = length ds) as ->.
    { clear. induction ds; cbn; [reflexivity | now f_equal]. }
    destruct (Nat.ltb_spec 4 (length ds)); [lia|].
    destruct ds as [|d ds']; [contradiction|].
    cbn [fold_right truthy_str negb].
    change (String (hex_digit d) (fold_right _ EmptyString ds'))
      with (fold_right (fun d s => String (hex_digit d) s) EmptyString (d :: ds')).
    now rewrite (digits_value_hex _ Hall), Hval. }
  destruct (Z.eqb_spec d3 0) as [E3|E3];
    [destruct (Z.eqb_spec d2 0) as [E2|E2];
       [destruct (Z.eqb_spec d1 0) as [E1|E1]|]|].
  - apply (Hgen [d0]); cbn [length fold_left]; try lia; try discriminate.
    repeat (apply List.Forall_cons; [assumption|]). apply List.Forall_nil.
  - apply (Hgen [d1; d0]); cbn [length fold_left]; try lia; try discriminate.
    repeat (apply List.Forall_cons; [assumption|]). apply List.Forall_nil.
  - apply (Hgen [d2; d1; d0]); cbn [length fold_left]; try lia; try discriminate.
    repeat (apply List.Forall_cons; [assumption|]). apply List.Forall_nil.
  - apply (Hgen [d3; d2; d1; d0]); cbn [length fold_left]; try lia;
      try discriminate.
    repeat (apply List.Forall_cons; [assumption|]). apply List.Forall_nil.
Qed.

Lemma format_x_nonempty (n : Z) :
  0 <= n < 65536 -> truthy_str (format_x n) = true.
Proof.
  intros Hn. pose proof (parse_hextet_format_x n Hn) as H.
  destruct (format_x n); [discriminate H | reflexivity].
Qed.

(** The low bits of a shifted number are free. *)
Lemma lor_shiftl_add (a b k : Z) :
  0 <= k -> 0 <= b < 2 ^ k -> Z.lor (Z.shiftl a k) b = a * 2 ^ k + b.
Proof.
  intros Hk Hb.
  assert (Z.land (Z.shiftl a k) b = 0) as H0.
  { rewrite <- (Z.mod_small b (2 ^ k)) by lia.
    rewrite <- (Z.land_ones b k Hk), (Z.land_comm b), Z.land_assoc.
    rewrite (Z.land_ones _ k Hk), Z.shiftl_mul_pow2 by lia.
    now rewrite Z.mod_mul, Z.land_0_l by lia. }
  rewrite <- Z.lxor_lor by exact H0.
  rewrite <- Z.add_nocarry_lxor by exact H0.
  now rewrite Z.shiftl_mul_pow2 by lia.
Qed.

Lemma split_String (sep a : ascii) (s : string) :
  split sep (String a s) =
  if Ascii.eqb a sep then EmptyString :: split sep s
  else match split sep s with
       | [] => [String a EmptyString]
       | p :: ps => String a p :: ps
       end.
Proof. reflexivity. Qed.

Lemma mapped_chars (q : string) :
  "::ffff:" ++ q =
  String ":" (String ":" (String "f" (String "f" (String "f" (String "f"
    (String ":" q)))))).
Proof. reflexivity. Qed.

Lemma split_mapped (q : string) :
  contains colon q = false ->
  split colon ("::ffff:" ++ q) = [""; ""; "ffff"; q].
Proof.
  intros H. rewrite mapped_chars, !split_String, (split_no_sep _ _ H).
  reflexivity.
Qed.

Lemma contains_app_r (c : ascii) (p q : string) :
  contains c (p ++ q) = contains c p || contains c q.
Proof.
  induction p as [|a p IH]; [reflexivity|].
  change (String a p ++ q) with (String a (p ++ q)).
  cbn [contains]. now rewrite IH, orb_assoc.
Qed.

Lemma IPv4Address_has_dot (q : string) (a : IPv4Address) :
  new_IPv4Address (inr q) = Returns a -> contains dot q = true.
Proof.
  intros H. apply IPv4Address_octets in H as [Hl _].
  rewrite split_length in Hl. rewrite contains_count.
  destruct (Nat.eqb_spec (count dot q) 0); [lia | reflexivity].
Qed.

(** The hextet loops on the parts of a mapped literal. *)
Lemma mapped_hextets (h l : string) (x y : Z) :
  truthy_str h = true -> truthy_str l = true ->
  BaseV6._parse_hextet h = Returns x -> BaseV6._parse_hextet l = Returns y ->
  let parts := [""; ""; "ffff"; h; l] in
  (skip_index <- BaseV6.find_skip_index parts ;;
   l <- BaseV6.layout parts skip_index ;;
   let '(parts_hi, parts_lo, parts_skipped) := l in
   try_except
     (ip_int <- foldM (BaseV6.add_hextet parts) (range 0 parts_hi) 0 ;;
      let ip_int := Z.shiftl ip_int (16 * parts_skipped) in
      foldM (BaseV6.add_hextet parts) (range (- parts_lo) 0) ip_int)
     [ValueError]
     (Raises AddressValueError))%exc
  = Returns (Z.lor (Z.shiftl (Z.lor (Z.shiftl 65535 16) x) 16) y).
Proof.
  intros Hh Hl Hx Hy parts.
  assert (BaseV6.find_skip_index parts = Returns (Some 1)) as ->.
  { subst parts. destruct h, l; try discriminate. reflexivity. }
  cbn [Py.bind].
  assert (BaseV6.layout parts (Some 1) = Returns (0, 3, 5)) as ->.
  { subst parts. destruct h, l; try discriminate. reflexivity. }
  cbn [Py.bind].
  assert (foldM (BaseV6.add_hextet parts) (range 0 0) 0 = Returns 0) as ->
    by reflexivity.
  cbn [Py.bind].
  change (range (- (3)) 0) with [-3; -2; -1].
  cbn [foldM]. unfold BaseV6.add_hextet.
  assert (getitem parts (-3) = Returns "ffff") as -> by reflexivity.
  assert (getitem parts (-2) = Returns h) as -> by reflexivity.
  assert (getitem parts (-1) = Returns l) as -> by reflexivity.
  cbn [Py.bind].
  assert (BaseV6._parse_hextet "ffff" = Returns 65535) as -> by reflexivity.
  cbn [Py.bind]. rewrite Hx. cbn [Py.bind]. rewrite Hy.
  reflexivity.
Qed.

(** [IPv6Address("::ffff:" + q)] for a dotted quad [q]. *)
Lemma new_IPv6Address_mapped (q : string) (a : IPv4Address) :
  new_IPv4Address (inr q) = Returns a ->
  new_IPv6Address (inr ("::ffff:" ++ q)) =
  Returns {| _ip6 := 65535 * 2 ^ 32 + _ip4 a; _scope_id := None |}.
Proof.
  intros Ha.
  pose proof (IPv4Address_no_colon _ _ Ha) as Hcolon.
  pose proof (IPv4Address_no_slash _ _ Ha) as Hslash.
  pose proof (IPv4Address_has_dot _ _ Ha) as Hdot.
  pose proof (IPv4Address_range _ _ Ha) as Hr.
  assert (contains percent q = false) as Hpct.
  { apply IPv4Address_chars in Ha.
    apply (forallb_str_contains quad_char); [exact Ha | reflexivity]. }
  unfold new_IPv6Address.
  rewrite contains_app_r, Hslash. cbn [orb].
  assert (contains slash "::ffff:" = false) as -> by reflexivity.
  assert (BaseV6._split_scope_id ("::ffff:" ++ q) = Returns ("::ffff:" ++ q, None))
    as ->.
  { unfold BaseV6._split_scope_id. rewrite mapped_chars.
    assert (partition percent q = (q, false, EmptyString)) as Hq.
    { clear - Hpct. induction q as [|c q IH]; [reflexivity|]. cbn in *.
      apply orb_false_iff in Hpct as [-> Hq]. now rewrite (IH Hq). }
    cbn. now rewrite Hq. }
  cbn [Py.bind fst snd].
  unfold BaseV6._ip_int_from_string.
  rewrite (split_mapped q Hcolon).
  assert (truthy_str ("::ffff:" ++ q) = true) as -> by now rewrite mapped_chars.
  assert (getitem [""; ""; "ffff"; q] (-1) = Returns q) as -> by reflexivity.
  cbn [negb length Nat.ltb Nat.leb Py.bind]. rewrite Hdot, Ha.
  cbn [try_except Py.bind removelast app].
  set (hi := Z.land (Z.shiftr (_ip4 a) 16) 65535).
  set (lo := Z.land (_ip4 a) 65535).
  assert (0 <= hi < 65536 /\ 0 <= lo < 65536 /\ _ip4 a = 65536 * hi + lo)
    as (Hhi & Hlo & Hsum).
  { unfold hi, lo. change 65535 with (Z.ones 16).
    rewrite !Z.land_ones, Z.shiftr_div_pow2 by lia.
    change (2 ^ 16) with 65536. change (2 ^ 32) with 4294967296 in Hr.
    Z.div_mod_to_equations. lia. }
  clearbody hi lo.
  assert ((BaseV6._HEXTET_COUNT + 1
           <? Z.of_nat (length [""; ""; "ffff"; format_x hi; format_x lo]))
          = false) as -> by reflexivity.
  pose proof (mapped_hextets (format_x hi) (format_x lo) hi lo
                (format_x_nonempty _ Hhi) (format_x_nonempty _ Hlo)
                (parse_hextet_format_x _ Hhi) (parse_hextet_format_x _ Hlo))
    as Ht.
  cbv zeta in Ht. rewrite Ht.
  cbn [Py.bind orb]. do 2 f_equal.
  rewrite !lor_shiftl_add by lia.
  change (2 ^ 16) with 65536. change (2 ^ 32) with 4294967296. lia.
Qed.

End Mapped.

(** X8.  [ipv6] accepts every IPv4-mapped literal (the docstring's "including
    IPv4-mapped IPv6 addresses"): for every dotted quad [q] that
    [IPv4Address] parses, [ipv6("::ffff:" + q, cidr=False)] returns the
    address [0xffff * 2^32 + q], and with caches that only the library
    filled [ipv6("::ffff:" + q)] returns its /128 network; [ipv4] rejects
    the literal whatever the flags. *)
Theorem ipv6_accepts_mapped_ipv4 (st : state) (q : string) (a : IPv4Address)
    (cidr strict host_bit : bool) :
  new_IPv4Address (inr q) = Returns a ->
  result (run (ipv6 ("::ffff:" ++ q) false strict host_bit) st) =
    Returns (VIPv6Address {| _ip6 := 65535 * 2 ^ 32 + _ip4 a;
                             _scope_id := None |}) /\
  (caches_ok st ->
   result (run (ipv6 ("::ffff:" ++ q) true false host_bit) st) =
     Returns (VIPv6Network
                {| network_address6 := {| _ip6 := 65535 * 2 ^ 32 + _ip4 a;
                                          _scope_id := None |};
                   netmask6 := {| _ip6 := 2 ^ 128 - 1; _scope_id := None |};
                   _prefixlen6 := 128 |})) /\
  failed (result (run (ipv4 ("::ffff:" ++ q) cidr strict host_bit) st)).
Proof.
  intros Ha. pose proof (new_IPv6Address_mapped q a Ha) as H6.
  assert ("::ffff:" ++ q <> "") as Hne by (rewrite mapped_chars; discriminate).
  assert (contains slash ("::ffff:" ++ q) = false) as Hs
    by now apply IPv6Address_no_slash in H6.
  split; [|split].
  - rewrite ipv6_validate, result_validate by (exact Hne || reflexivity).
    cbn [the_call]. now rewrite exec_address6, H6.
  - intros Hok.
    rewrite ipv6_validate, result_validate by (exact Hne || reflexivity).
    cbn [the_call]. rewrite exec_network6.
    pose proof (new_IPv6Network_bare st _ (negb host_bit) Hok Hs) as Hn.
    rewrite H6 in Hn.
    destruct (new_IPv6Network _ _ st) as [r s1]. cbn [fst] in Hn. now subst r.
  - destruct (proj1 (no_escape_validate IPv4Network_ IPv4Address_
                       ("::ffff:" ++ q) cidr strict host_bit st)) as [Hf|Hsu];
      [exact Hf|].
    rewrite <- ipv4_validate in Hsu.
    apply accepted4_address in Hsu as [a4 Ha4].
    rewrite (address_part_no_slash _ Hs) in Ha4.
    apply IPv4Address_no_colon in Ha4. apply IPv6Address_colon in H6.
    congruence.
Qed.

Lemma ipv6_accepts_mapped_ipv4_witness :
  result (run (ipv6 "::ffff:10.1.2.3" false true false) initial) =
  Returns (VIPv6Address {| _ip6 := 65535 * 2 ^ 32 + 167838211;
                           _scope_id := None |}).
Proof.
  exact (proj1 (ipv6_accepts_mapped_ipv4 initial "10.1.2.3"
                  {| _ip4 := 167838211 |} false true false eq_refl)).
Defined.

(* ===================================================================== *)
(** * The prefix length of a returned network                             *)
(* ===================================================================== *)

Section PrefixLength.

Lemma prefix_from_prefix_string_int (c : cls) (m : string) (p : Z) :
  _prefix_from_prefix_string c m = Returns p ->
  isascii m && isdigit m = true /\ int10 m = Returns p.
Proof.
  unfold _prefix_from_prefix_string. intros H.
  destruct (isascii m && isdigit m); [|discriminate H]. cbn [negb Py.bind] in H.
  destruct (int10 m) as [n|e]; [|destruct e; discriminate H].
  cbn [try_except Py.bind] in H.
  destruct (negb _); [discriminate H|]. now injection H as <-.
Qed.

Lemma make_netmask6_int (m : string) (nm : IPv6Address) (plen : Z) :
  make_netmask6 (inr m) = Returns (nm, plen) ->
  isascii m && isdigit m = true /\ int10 m = Returns plen.
Proof.
  unfold make_netmask6. intros H.
  destruct (_prefix_from_prefix_string BaseV6.class m) as [p|] eqn:E;
    [|discriminate H].
  cbn [Py.bind] in H. destruct (new_IPv6Address (inl _)); [|discriminate H].
  injection H as _ <-. now apply prefix_from_prefix_string_int in E.
Qed.

Lemma make_netmask4_int (m : string) (nm : IPv4Address) (plen : Z) :
  isascii m && isdigit m = true ->
  make_netmask4 (inr m) = Returns (nm, plen) -> int10 m = Returns plen.
Proof.
  intros Hd. unfold make_netmask4. intros H.
  destruct (_prefix_from_prefix_string BaseV4.class m) as [p|e] eqn:E.
  - cbn [try_except Py.bind] in H.
    destruct (new_IPv4Address (inl _)); [|discriminate H].
    injection H as _ <-. now apply prefix_from_prefix_string_int in E.
  - exfalso. cbn [try_except] in H.
    destruct (catches [NetmaskValueError] e); [|discriminate H].
    unfold _prefix_from_ip_string in H.
    change (_ip_int_from_string BaseV4.class) with BaseV4._ip_int_from_string in H.
    destruct (BaseV4._ip_int_from_string m) as [n|e'] eqn:En;
      [|destruct e'; discriminate H].
    clear H. unfold BaseV4._ip_int_from_string in En.
    destruct (negb (truthy_str m)); [discriminate En|].
    apply ascii_digits in Hd.
    rewrite (split_no_sep dot m) in En; [discriminate En|].
    apply (forallb_str_contains ascii_digit); [exact Hd | reflexivity].
Qed.

Lemma split_addr_prefix_mask (c : cls) (value addr m : string) :
  split slash value = [addr; m] ->
  _split_addr_prefix c value = Returns (addr, inr m).
Proof.
  intros H. unfold _split_addr_prefix, _split_optional_netmask. now rewrite H.
Qed.

End PrefixLength.

(** X9.  In a process in which only the library wrote to its netmask caches,
    the prefix length of the network a validator returns is the number
    written after the ['/'].  For [ipv6] the suffix of an accepted value is
    always a string of ASCII digits; for [ipv4], which also takes a dotted
    netmask or hostmask, this holds when the suffix is one. *)
Theorem prefix_length_is_the_suffix (st : state) (value addr m : string)
    (strict host_bit : bool) :
  caches_ok st ->
  split slash value = [addr; m] ->
  (forall n,
     result (run (ipv6 value true strict host_bit) st) = Returns (VIPv6Network n) ->
     isascii m && isdigit m = true /\ int10 m = Returns (_prefixlen6 n)) /\
  (forall n,
     result (run (ipv4 value true strict host_bit) st) = Returns (VIPv4Network n) ->
     isascii m && isdigit m = true ->
     int10 m = Returns (_prefixlen4 n)).
Proof.
  intros Hok Hs. split.
  - intros n Hr. rewrite ipv6_validate in Hr.
    destruct (run_validate_object _ _ _ _ _ _ _ _ Hr I) as (_ & _ & He).
    cbn [the_call] in He.
    rewrite exec_network6, new_IPv6Network_unfold,
      (split_addr_prefix_mask _ _ _ _ Hs) in He.
    destruct (new_IPv6Address (inr addr)) as [a|]; [|discriminate He].
    destruct (make_netmask6_ok (inr m) st Hok) as [Hm _].
    destruct (_make_netmask6 (inr m) st) as [[[nm plen]|e] st1]; [|discriminate He].
    cbn [fst] in Hm. symmetry in Hm. apply make_netmask6_int in Hm.
    destruct (_ =? _); [injection He as <- _; exact Hm|].
    destruct (negb host_bit); [discriminate He|].
    destruct (new_IPv6Address (inl _)); [|discriminate He].
    injection He as <- _. exact Hm.
  - intros n Hr Hd. rewrite ipv4_validate in Hr.
    destruct (run_validate_object _ _ _ _ _ _ _ _ Hr I) as (_ & _ & He).
    cbn [the_call] in He.
    rewrite exec_network4, new_IPv4Network_unfold,
      (split_addr_prefix_mask _ _ _ _ Hs) in He.
    destruct (new_IPv4Address (inr addr)) as [a|]; [|discriminate He].
    destruct (make_netmask4_ok (inr m) st Hok) as [Hm _].
    destruct (_make_netmask4 (inr m) st) as [[[nm plen]|e] st1]; [|discriminate He].
    cbn [fst] in Hm. symmetry in Hm. apply (make_netmask4_int _ _ _ Hd) in Hm.
    destruct (_ =? _); [injection He as <- _; exact Hm|].
    destruct (negb host_bit); [discriminate He|].
    destruct (new_IPv4Address (inl _)); [|discriminate He].
    injection He as <- _. exact Hm.
Qed.

Lemma prefix_length_is_the_suffix_witness :
  int10 "20" = Returns 20.
Proof.
  refine (proj2 (prefix_length_is_the_suffix initial "10.9.8.7/20" "10.9.8.7" "20"
                   false true caches_ok_initial eq_refl)
            {| network_address4 := {| _ip4 := 168361984 |};
               netmask4 := {| _ip4 := 4294963200 |}; _prefixlen4 := 20 |}
            _ eq_refl).
  vm_compute. reflexivity.
Defined.
